(** * qsum: type-aware checksums of Python values

    A shallow embedding of [qsum/types/type_map.py] and
    [qsum/core/logic.py], and the properties of the recursive checksum
    algorithm, of the prefix table and of the [Checksum] wrapper class. *)

From Stdlib Require Import ZArith NArith List Bool Lia.
From Stdlib Require Import Strings.String Strings.Ascii Strings.Byte.
From Stdlib Require Import Permutation Sorted.
From Stdlib Require Import Floats.SpecFloat.
Import ListNotations.

Set Implicit Arguments.
Set Warnings "-register-all".
Local Open Scope list_scope.

(** ** Byte strings

    A Python [bytes] (or [bytearray]) content is a list of bytes.  Python
    compares two byte strings lexicographically on the unsigned value of
    their bytes, a proper prefix being smaller. *)

Definition bytes := list byte.

Fixpoint bytes_eqb (a b : bytes) : bool :=
  match a, b with
  | [], [] => true
  | x :: a', y :: b' => Byte.eqb x y && bytes_eqb a' b'
  | _, _ => false
  end.

Fixpoint bytes_leb (a b : bytes) : bool :=
  match a, b with
  | [], _ => true
  | _ :: _, [] => false
  | x :: a', y :: b' =>
      if (Byte.to_N x <? Byte.to_N y)%N then true
      else if (Byte.to_N x =? Byte.to_N y)%N then bytes_leb a' b'
      else false
  end.

Definition bytes_le (a b : bytes) : Prop := bytes_leb a b = true.

(** ** Python's [sorted] on a list of byte strings

    [sorted] is a stable sort.  The order on byte strings is total and
    antisymmetric, so every sorting algorithm returns the same list; the
    model inserts each element before the first one that is not smaller. *)

Fixpoint insert_sorted (x : bytes) (l : list bytes) : list bytes :=
  match l with
  | [] => [x]
  | y :: l' => if bytes_leb x y then x :: l else y :: insert_sorted x l'
  end.

Definition sorted (l : list bytes) : list bytes := fold_right insert_sorted [] l.

(** [sep.join(l)] on byte strings. *)
Definition bytearray_join (sep : bytes) (l : list bytes) : bytes :=
  match l with
  | [] => []
  | x :: l' => x ++ List.concat (map (fun y => sep ++ y) l')
  end.

(** ** Exceptions

    A Python call either returns a value or raises.  The exception classes
    are those [logic.py] raises itself, those the tests expect of the
    functions it imports, those of the interpreter that its expressions can
    raise, and any other class, by its name. *)

Inductive exception : Type :=
| QSumUnhandledContainerType
| QSumInvalidChecksum
| QSumInvalidDataTypeException
| QSumInvalidDependsOn
| UnsupportedType
| AttributeError
| TypeError
| ValueError
| RecursionError
| OtherException (name : string).

Inductive result (A : Type) : Type :=
| Ok (a : A)
| Raise (e : exception).

Arguments Ok {A} a.
Arguments Raise {A} e.

Definition bind {A B : Type} (m : result A) (k : A -> result B) : result B :=
  match m with
  | Ok a => k a
  | Raise e => Raise e
  end.

Notation "'let*' x ':=' m 'in' k" := (bind m (fun x => k))
  (at level 10, x name, m at level 100, k at level 200).

(** The value a call returned, when it returned. *)
Definition returned {A : Type} (m : result A) : option A :=
  match m with
  | Ok a => Some a
  | Raise _ => None
  end.

(** A comprehension [[f(x) for x in l]]: the calls are made in the order
    of [l], and the first one that raises ends the comprehension. *)
Fixpoint mapM {A B : Type} (f : A -> result B) (l : list A) : result (list B) :=
  match l with
  | [] => Ok []
  | x :: l' =>
      let* y := f x in
      let* ys := mapM f l' in
      Ok (y :: ys)
  end.

(** A loop [for x in l: acc = step(acc, x)]. *)
Fixpoint foldM {A S : Type} (step : S -> A -> result S) (l : list A) (acc : S)
  : result S :=
  match l with
  | [] => Ok acc
  | x :: l' =>
      let* acc' := step acc x in
      foldM step l' acc'
  end.

(** Two comprehensions over permuted lists both return, and then permuted
    lists, or both raise. *)
Definition same_up_to_order {B : Type} (r1 r2 : result (list B)) : Prop :=
  match r1, r2 with
  | Ok l1, Ok l2 => Permutation l1 l2
  | Raise _, Raise _ => True
  | _, _ => False
  end.

(** ** Types

    The classes of the values that are checksummed: the built-in ones the
    sources name, and user classes, each with its base class. *)

Inductive pytype : Type :=
| t_object
| t_int | t_str | t_bool | t_bytes | t_float | t_complex | t_bytearray | t_type
| t_tuple | t_list | t_deque | t_dict
| t_set | t_frozenset | t_dict_items
| t_NoneType | t_ellipsis | t_function
| t_Checksum | t_ChecksumCollection
| t_class (name : string) (base : pytype).

Fixpoint pytype_eqb (a b : pytype) : bool :=
  match a, b with
  | t_object, t_object | t_int, t_int | t_str, t_str | t_bool, t_bool
  | t_bytes, t_bytes | t_float, t_float | t_complex, t_complex
  | t_bytearray, t_bytearray | t_type, t_type | t_tuple, t_tuple
  | t_list, t_list | t_deque, t_deque | t_dict, t_dict | t_set, t_set
  | t_frozenset, t_frozenset | t_dict_items, t_dict_items
  | t_NoneType, t_NoneType | t_ellipsis, t_ellipsis | t_function, t_function
  | t_Checksum, t_Checksum | t_ChecksumCollection, t_ChecksumCollection => true
  | t_class n1 b1, t_class n2 b2 => String.eqb n1 n2 && pytype_eqb b1 b2
  | _, _ => false
  end.

(** The method resolution order of a class: the class, then its bases up
    to [object].  [bool] derives from [int]. *)
Fixpoint mro (t : pytype) : list pytype :=
  match t with
  | t_object => [t_object]
  | t_bool => [t_bool; t_int; t_object]
  | t_class _ base => t :: mro base
  | _ => [t; t_object]
  end.

(** Python's [issubclass(t, c)]. *)
Definition issubclass (t c : pytype) : bool := existsb (pytype_eqb c) (mro t).

(** ** Values *)

(** An instance of the [Checksum] class holds the checksum bytes. *)
Record Checksum : Type := mkChecksum { _checksum_bytes : bytes }.

(** The Python objects of the model.  A collection carries its class (a
    built-in one or a subclass) and its elements in iteration order; a
    dict carries its items in iteration order; a function carries what
    [inspect] reads from it: its source text, its attributes and the name
    of its module. *)
Inductive value : Type :=
| VNone
| VEllipsis
| VBool (b : bool)
| VInt (z : Z)
| VFloat (f : spec_float)
| VComplex (re im : spec_float)
| VStr (s : string)
| VBytes (b : bytes)
| VBytearray (b : bytes)
| VType (t : pytype)
| VColl (cls : pytype) (items : list value)
| VDict (cls : pytype) (items : list (value * value))
| VDictItems (items : list (value * value))
| VFunction (source : string) (attrs : list (string * value)) (module_name : string)
| VChecksum (c : Checksum)
| VInstance (cls_name : string) (attrs : list (string * value)).

Definition VTuple (items : list value) : value := VColl t_tuple items.
Definition VList (items : list value) : value := VColl t_list items.
Definition VSet (items : list value) : value := VColl t_set items.

(** [type(obj)]. *)
Definition type_of (obj : value) : pytype :=
  match obj with
  | VNone => t_NoneType
  | VEllipsis => t_ellipsis
  | VBool _ => t_bool
  | VInt _ => t_int
  | VFloat _ => t_float
  | VComplex _ _ => t_complex
  | VStr _ => t_str
  | VBytes _ => t_bytes
  | VBytearray _ => t_bytearray
  | VType _ => t_type
  | VColl cls _ => cls
  | VDict cls _ => cls
  | VDictItems _ => t_dict_items
  | VFunction _ _ _ => t_function
  | VChecksum _ => t_Checksum
  | VInstance name _ => t_class name t_object
  end.

(** [isinstance(obj, c)]. *)
Definition isinstance (obj : value) (c : pytype) : bool := issubclass (type_of obj) c.

(** [for obj_item in obj]: the elements an iteration over [obj] yields, in
    order.  A dict yields its keys, its items view yields the 2-tuples
    (key, value); a string yields its characters, a byte string the values
    of its bytes; the other values are not iterable. *)
Definition iter (obj : value) : result (list value) :=
  match obj with
  | VColl _ items => Ok items
  | VDict _ items => Ok (map fst items)
  | VDictItems items => Ok (map (fun kv => VTuple [fst kv; snd kv]) items)
  | VStr s => Ok (map (fun c => VStr (String c EmptyString)) (list_ascii_of_string s))
  | VBytes b | VBytearray b => Ok (map (fun x => VInt (Z.of_N (Byte.to_N x))) b)
  | _ => Raise TypeError
  end.

(** [obj.items()]. *)
Definition items (obj : value) : result value :=
  match obj with
  | VDict _ kvs => Ok (VDictItems kvs)
  | _ => Raise AttributeError
  end.

Fixpoint assoc {V : Type} (name : string) (d : list (string * V)) : option V :=
  match d with
  | [] => None
  | (k, v) :: d' => if String.eqb k name then Some v else assoc name d'
  end.

(** [getattr(obj, name)] for a name [logic.py] reads from an operand: the
    [checksum_bytes] property of a [Checksum], the attributes of a user
    instance or of a function. *)
Definition getattr (obj : value) (name : string) : result value :=
  match obj with
  | VChecksum c =>
      if String.eqb name "checksum_bytes" then Ok (VBytes (_checksum_bytes c))
      else Raise AttributeError
  | VInstance _ attrs | VFunction _ attrs _ =>
      match assoc name attrs with
      | Some v => Ok v
      | None => Raise AttributeError
      end
  | _ => Raise AttributeError
  end.

Definition hasattr (obj : value) (name : string) : bool :=
  match getattr obj name with
  | Ok _ => true
  | Raise _ => false
  end.

(** [function.__dict__]: the attributes as a dict with string keys. *)
Definition function_dict (attrs : list (string * value)) : value :=
  VDict t_dict (map (fun kv => (VStr (fst kv), snd kv)) attrs).

(** ** Python dicts as insertion-ordered association lists *)

Section Dict.
Variables K V : Type.
Variable eqb : K -> K -> bool.

Fixpoint dict_get (k : K) (d : list (K * V)) : option V :=
  match d with
  | [] => None
  | (k', v) :: d' => if eqb k' k then Some v else dict_get k d'
  end.

(** [d[k] = v]: an existing key keeps its place and takes the new value. *)
Fixpoint dict_set (k : K) (v : V) (d : list (K * V)) : list (K * V) :=
  match d with
  | [] => [(k, v)]
  | (k', v') :: d' =>
      if eqb k' k then (k', v) :: d' else (k', v') :: dict_set k v d'
  end.

Definition dict_keys (d : list (K * V)) : list K := map fst d.
Definition dict_values (d : list (K * V)) : list V := map snd d.
End Dict.

(** ** [qsum/types/type_map.py] *)

Definition PREFIX_BYTES : nat := 2.

Definition RESERVED_INVALID_PREFIX : bytes := [xff; xff].

Definition TYPE_TO_PREFIX : list (pytype * bytes) :=
  [ (* \x00: builtin python types that represent individual objects *)
    (t_int, [x00; x00]);
    (t_str, [x00; x01]);
    (t_bool, [x00; x02]);
    (t_bytes, [x00; x03]);
    (t_float, [x00; x04]);
    (t_complex, [x00; x05]);
    (t_bytearray, [x00; x06]);
    (t_type, [x00; x07]);
    (* \x01: builtin python containers and collections *)
    (t_tuple, [x01; x00]);
    (t_list, [x01; x01]);
    (t_deque, [x01; x02]);
    (t_dict, [x01; x03]) ].

(** [{v: k for k, v in TYPE_TO_PREFIX.items()}] *)
Definition PREFIX_TO_TYPE : list (bytes * pytype) :=
  fold_left (fun d kv => dict_set bytes_eqb (snd kv) (fst kv) d) TYPE_TO_PREFIX [].

(** ** What [logic.py] imports

    [logic.py] imports its constants from [qsum.core.constants], the class
    test from [qsum.core.cache], the dependency resolution from
    [qsum.core.dependency], the digest of a value from [qsum.data], the
    prefix of a type from [qsum.types.type_logic] and the prefix of the
    unregistered types from [qsum.types.type_map].  None of them is among
    the sources read here: they are the parameters of the development. *)

Class Imports : Type := {
  (** the hash algorithms a caller can name *)
  HashAlgoType : Type;
  (** what a caller can pass as [depends_on] *)
  DependsOnType : Type;
  DEFAULT_HASH_ALGO : HashAlgoType;
  DEFAULT_ALLOW_UNREGISTERED : bool;
  CONTAINER_TYPES : list pytype;
  MAPPABLE_CONTAINER_TYPES : list pytype;
  UNORDERED_CONTAINER_TYPES : list pytype;
  ALL_SUBCLASS_TYPES : list pytype;
  UNREGISTERED_TYPE_PREFIX : bytes;
  (** [is_sub_class(the_type, classes)] *)
  is_sub_class : pytype -> list pytype -> bool;
  (** [resolve_dependencies(depends_on)] *)
  resolve_dependencies : DependsOnType -> result value;
  (** [data_checksum(obj, obj_type, hash_algo, checksum_type=...)] *)
  data_checksum : value -> pytype -> HashAlgoType -> option pytype -> result bytes;
  (** [type_to_prefix(the_type, allow_unregistered=...)], the keyword
      argument being optional *)
  type_to_prefix : pytype -> option bool -> result bytes;
}.

(** Leading and trailing whitespace, as [str.strip()] removes it from a
    text of ASCII characters. *)
Definition is_space (c : ascii) : bool :=
  let n := nat_of_ascii c in
  ((9 <=? n) && (n <=? 13)) || ((28 <=? n) && (n <=? 32)).

Fixpoint lstrip (s : list ascii) : list ascii :=
  match s with
  | c :: s' => if is_space c then lstrip s' else s
  | [] => []
  end.

Definition strip (s : string) : string :=
  string_of_list_ascii (rev (lstrip (rev (lstrip (list_ascii_of_string s))))).

(** ** Operations of the interpreter on byte strings *)

Definition hex_digit (n : N) : ascii :=
  nth (N.to_nat n) (list_ascii_of_string "0123456789abcdef") "0"%char.

(** [bytes.hex()]: two lower-case digits for each byte. *)
Definition hex (b : bytes) : string :=
  string_of_list_ascii
    (flat_map (fun x => let n := Byte.to_N x in
                        [hex_digit (n / 16); hex_digit (n mod 16)]%N) b).

Definition hex_value (c : ascii) : option N :=
  let n := N_of_ascii c in
  if ((48 <=? n) && (n <=? 57))%N then Some (n - 48)%N
  else if ((97 <=? n) && (n <=? 102))%N then Some (n - 87)%N
  else if ((65 <=? n) && (n <=? 70))%N then Some (n - 55)%N
  else None.

Definition is_ascii_space (c : ascii) : bool :=
  let n := N_of_ascii c in (((9 <=? n) && (n <=? 13)) || (n =? 32))%N.

Definition byte_of_N (n : N) : byte :=
  match Byte.of_N n with
  | Some b => b
  | None => x00
  end.

(** [bytes.fromhex(s)]: two hexadecimal digits for each byte, whitespace
    being skipped between the bytes. *)
Fixpoint fromhex_chars (s : list ascii) : result bytes :=
  match s with
  | [] => Ok []
  | c :: s' =>
      if is_ascii_space c then fromhex_chars s'
      else
        match hex_value c, s' with
        | Some top, c' :: s'' =>
            match hex_value c' with
            | Some bot =>
                let* rest := fromhex_chars s'' in
                Ok (byte_of_N (top * 16 + bot) :: rest)
            | None => Raise ValueError
            end
        | _, _ => Raise ValueError
        end
  end.

Definition fromhex (s : string) : result bytes :=
  fromhex_chars (list_ascii_of_string s).

(** [b == other] for a [bytes] object [b]: the contents are compared when
    [other] is a byte string; a [Checksum] answers through its own
    [__eq__], the reflected comparison, which compares its bytes with [b];
    the answer is [False] otherwise. *)
Definition py_bytes_eq (b : bytes) (other : value) : bool :=
  match other with
  | VBytes b' | VBytearray b' => bytes_eqb b b'
  | VChecksum c => bytes_eqb (_checksum_bytes c) b
  | _ => false
  end.

(** [s == other] for a [str] object [s]. *)
Definition py_str_eq (s : string) (other : value) : bool :=
  match other with
  | VStr s' => String.eqb s s'
  | _ => false
  end.

(** [b + other] for a [bytes] object [b]. *)
Definition py_bytes_add (b : bytes) (other : value) : result value :=
  match other with
  | VBytes b' | VBytearray b' => Ok (VBytes (b ++ b'))
  | _ => Raise TypeError
  end.

(** ** [qsum/core/logic.py] *)

Section Logic.
Context {I : Imports}.

(** [_checksum]: [depth] bounds the depth of the recursion, as the
    interpreter's recursion limit does. *)
Fixpoint _checksum (depth : nat) (obj : value) (obj_type checksum_type : pytype)
    (hash_algo : HashAlgoType) (allow_unregistered : bool)
    (depends_on : option DependsOnType) {struct depth} : result bytes :=
  match depth with
  | O => Raise RecursionError
  | S depth' =>
    (* bind the args that won't change with internal recursive calls *)
    let _checksum_w_args obj obj_type checksum_type depends_on :=
      _checksum depth' obj obj_type checksum_type hash_algo allow_unregistered
        depends_on in
    match depends_on with
    | Some depends_on =>
        let* resolved_deps := resolve_dependencies depends_on in
        (* we have handled the depends_on so don't pass it again *)
        _checksum_w_args (VTuple [obj; resolved_deps]) t_tuple obj_type None
    | None =>
      if is_sub_class obj_type CONTAINER_TYPES then
        if is_sub_class obj_type MAPPABLE_CONTAINER_TYPES then
          let* checksum_bytes :=
            if is_sub_class obj_type UNORDERED_CONTAINER_TYPES then
              let* obj_items := iter obj in
              let* checksums :=
                mapM (fun obj_item =>
                        _checksum_w_args obj_item (type_of obj_item)
                          (type_of obj_item) None) obj_items in
              Ok (bytearray_join [] (sorted checksums))
            else
              let* obj_items := iter obj in
              foldM (fun checksum_bytes obj_item =>
                       let obj_item_type := type_of obj_item in
                       let* c := _checksum_w_args obj_item obj_item_type
                                   obj_item_type None in
                       Ok (checksum_bytes ++ c)) obj_items []
          in
          let* prefix := type_to_prefix checksum_type (Some allow_unregistered) in
          let* digest :=
            data_checksum (VBytearray checksum_bytes) t_bytes hash_algo
              (if bytes_eqb prefix UNREGISTERED_TYPE_PREFIX
               then Some checksum_type else None) in
          Ok (prefix ++ digest)
        else if is_sub_class obj_type [t_dict] then
          let* obj_items := items obj in
          _checksum_w_args obj_items t_set obj_type None
        else Raise QSumUnhandledContainerType
      else if is_sub_class obj_type [t_function] then
        match obj with
        | VFunction source attrs module_name =>
            let source_code := strip source in
            let function_attributes := function_dict attrs in
            _checksum_w_args
              (VTuple [VStr source_code; function_attributes; VStr module_name])
              t_tuple obj_type None
        | _ => Raise TypeError
        end
      else
        let* prefix := type_to_prefix checksum_type None in
        let* digest :=
          data_checksum obj obj_type hash_algo
            (if bytes_eqb prefix UNREGISTERED_TYPE_PREFIX
             then Some checksum_type else None) in
        Ok (prefix ++ digest)
    end
  end.

(** [checksum(obj, hash_algo, allow_unregistered, depends_on)] *)
Definition checksum (depth : nat) (obj : value) (hash_algo : HashAlgoType)
    (allow_unregistered : bool) (depends_on : option DependsOnType)
  : result bytes :=
  let obj_type := type_of obj in
  _checksum depth obj obj_type obj_type hash_algo allow_unregistered depends_on.

(** [checksum_hex(obj, hash_algo)] *)
Definition checksum_hex (depth : nat) (obj : value) (hash_algo : HashAlgoType)
  : result string :=
  let* c := checksum depth obj hash_algo DEFAULT_ALLOW_UNREGISTERED None in
  Ok (hex c).

(** [_checksum_to_bytes(checksum_obj)] *)
Definition _checksum_to_bytes (checksum_obj : value) : result bytes :=
  match checksum_obj with
  | VBytes b => Ok b
  | VStr s => fromhex s
  | VChecksum c => Ok (_checksum_bytes c)
  | _ => Raise QSumInvalidChecksum
  end.

(** [Checksum.__init__(obj, is_checksum, **kwargs)]: the keyword
    arguments are those of [checksum]. *)
Definition __init__ (depth : nat) (obj : value) (is_checksum : bool)
    (hash_algo : HashAlgoType) (allow_unregistered : bool)
    (depends_on : option DependsOnType) : result Checksum :=
  if is_checksum then
    let* b := _checksum_to_bytes obj in Ok (mkChecksum b)
  else
    let* b := checksum depth obj hash_algo allow_unregistered depends_on in
    Ok (mkChecksum b).

(** [Checksum.from_checksum(obj)] *)
Definition from_checksum (obj : value) : result Checksum :=
  let* b := _checksum_to_bytes obj in Ok (mkChecksum b).

(** The property [checksum_bytes]. *)
Definition checksum_bytes (self : Checksum) : bytes := _checksum_bytes self.

(** [Checksum.hex()] *)
Definition Checksum_hex (self : Checksum) : string := hex (_checksum_bytes self).

(** [Checksum.__eq__(other)] *)
Definition __eq__ (self : Checksum) (other : value) : result bool :=
  if isinstance other t_bytes then
    (* if comparing to raw bytes then just compare to the checksum_bytes *)
    Ok (py_bytes_eq (_checksum_bytes self) other)
  else if isinstance other t_str then
    (* if comparing to a string use the hex *)
    Ok (py_str_eq (Checksum_hex self) other)
  else
    (* otherwise assume we have been given a Checksum like object and try
       to pull the checksum_bytes from it *)
    let* other_bytes := getattr other "checksum_bytes" in
    Ok (py_bytes_eq (_checksum_bytes self) other_bytes).

(** [Checksum.__add__(other)] *)
Definition __add__ (depth : nat) (self : Checksum) (other : value)
  : result Checksum :=
  let* other_bytes := getattr other "checksum_bytes" in
  let* both := py_bytes_add (_checksum_bytes self) other_bytes in
  let* c := _checksum depth both t_bytes t_ChecksumCollection DEFAULT_HASH_ALGO
              DEFAULT_ALLOW_UNREGISTERED None in
  from_checksum (VBytes c).

(** [is_supported_type(the_type)] *)
Definition is_supported_type (the_type : pytype) : bool :=
  match dict_get pytype_eqb the_type TYPE_TO_PREFIX with
  | Some _ => true
  | None => is_sub_class the_type ALL_SUBCLASS_TYPES
  end.

End Logic.

(** ** What the sources state about the imported functions *)

(** [type_to_prefix] returns, for a type of the table [TYPE_TO_PREFIX], the
    prefix the table gives it. *)
Definition registered_types_keep_their_prefix (I : Imports) : Prop :=
  forall (t : pytype) (allow_unregistered : option bool) (p : bytes),
    dict_get pytype_eqb t TYPE_TO_PREFIX = Some p ->
    type_to_prefix t allow_unregistered = Ok p.

(** The values whose iteration [_checksum] starts itself: a collection or
    the items of a dict. *)
Definition is_collection (obj : value) : bool :=
  match obj with
  | VColl _ _ | VDictItems _ => true
  | _ => false
  end.

(** ** Values with the same content

    Two values have the same content when one is the other up to the order
    of the elements of unordered collections, the order of the items of
    dicts, the order of the attributes of functions and the whitespace
    around their source text, at any depth. *)

Section SameContent.
Context {I : Imports}.

Definition mappable_type (cls : pytype) : Prop :=
  is_sub_class cls CONTAINER_TYPES = true
  /\ is_sub_class cls MAPPABLE_CONTAINER_TYPES = true.

Definition unordered_type (cls : pytype) : Prop :=
  mappable_type cls /\ is_sub_class cls UNORDERED_CONTAINER_TYPES = true.

Definition ordered_type (cls : pytype) : Prop :=
  mappable_type cls /\ is_sub_class cls UNORDERED_CONTAINER_TYPES = false.

(** A class that [_checksum] handles as a dict, its items being handled as
    a set. *)
Definition dict_type (cls : pytype) : Prop :=
  is_sub_class cls CONTAINER_TYPES = true
  /\ is_sub_class cls MAPPABLE_CONTAINER_TYPES = false
  /\ is_sub_class cls [t_dict] = true
  /\ unordered_type t_set.

(** Functions are handled as functions, the tuple made of them as an
    ordered container. *)
Definition function_type : Prop :=
  is_sub_class t_function CONTAINER_TYPES = false
  /\ is_sub_class t_function [t_function] = true
  /\ ordered_type t_tuple.

Inductive same_content : value -> value -> Prop :=
| same_value x : same_content x x
| same_then x y z : same_content x y -> same_content y z -> same_content x z
| same_reordered cls l1 l2 :
    unordered_type cls -> Permutation l1 l2 ->
    same_content (VColl cls l1) (VColl cls l2)
| same_elements cls l1 l2 :
    mappable_type cls -> same_contents l1 l2 ->
    same_content (VColl cls l1) (VColl cls l2)
| same_reordered_items cls kvs1 kvs2 :
    dict_type cls -> Permutation kvs1 kvs2 ->
    same_content (VDict cls kvs1) (VDict cls kvs2)
| same_items cls kvs1 kvs2 :
    dict_type cls -> ordered_type t_tuple -> same_item_lists kvs1 kvs2 ->
    same_content (VDict cls kvs1) (VDict cls kvs2)
| same_function source1 source2 attrs1 attrs2 module_name :
    function_type -> strip source1 = strip source2 ->
    same_content (function_dict attrs1) (function_dict attrs2) ->
    same_content (VFunction source1 attrs1 module_name)
      (VFunction source2 attrs2 module_name)
with same_contents : list value -> list value -> Prop :=
| same_contents_nil : same_contents [] []
| same_contents_cons x y l1 l2 :
    same_content x y -> same_contents l1 l2 ->
    same_contents (x :: l1) (y :: l2)
with same_item_lists : list (value * value) -> list (value * value) -> Prop :=
| same_item_lists_nil : same_item_lists [] []
| same_item_lists_cons k1 v1 k2 v2 l1 l2 :
    same_content k1 k2 -> same_content v1 v2 -> same_item_lists l1 l2 ->
    same_item_lists ((k1, v1) :: l1) ((k2, v2) :: l2).

End SameContent.

Scheme same_content_mut := Minimality for same_content Sort Prop
  with same_contents_mut := Minimality for same_contents Sort Prop
  with same_item_lists_mut := Minimality for same_item_lists Sort Prop.

(** ** A model of the imported modules

    The definitions of this part stand for modules of the repository that
    are not among the sources read.  Witnesses and worked examples run the
    code of [logic.py] on them. *)

Definition Z_of_byte (x : byte) : Z := Z.of_N (Byte.to_N x).

(** The [n] low-order bytes of [z], the most significant one first. *)
Fixpoint big_endian (n : nat) (z : Z) : bytes :=
  match n with
  | O => []
  | S n' => big_endian n' (Z.shiftr z 8) ++ [byte_of_N (Z.to_N (Z.land z 255))]
  end.

Definition utf8 (s : string) : bytes := list_byte_of_string s.

(** The bits of the IEEE 754 binary64 number [f], the sign of a zero being
    dropped. *)
Definition float_bits (f : spec_float) : Z :=
  let sign (s : bool) := (if s then Z.shiftl 1 63 else 0)%Z in
  match f with
  | S754_zero _ => 0%Z
  | S754_infinity s => (sign s + Z.shiftl 2047 52)%Z
  | S754_nan => Z.shiftl 4095 51
  | S754_finite s m e =>
      let m := Z.pos m in
      if (m <? Z.shiftl 1 52)%Z then (sign s + m)%Z
      else (sign s + Z.shiftl (e + 1075) 52 + (m - Z.shiftl 1 52))%Z
  end.

Definition type_name (t : pytype) : string :=
  match t with
  | t_object => "object" | t_int => "int" | t_str => "str" | t_bool => "bool"
  | t_bytes => "bytes" | t_float => "float" | t_complex => "complex"
  | t_bytearray => "bytearray" | t_type => "type" | t_tuple => "tuple"
  | t_list => "list" | t_deque => "deque" | t_dict => "dict" | t_set => "set"
  | t_frozenset => "frozenset" | t_dict_items => "dict_items"
  | t_NoneType => "NoneType" | t_ellipsis => "ellipsis"
  | t_function => "function" | t_Checksum => "Checksum"
  | t_ChecksumCollection => "ChecksumCollection"
  | t_class name _ => name
  end.

(** Modelled from the spec: the canonical byte encoding of a value, which
    [data_checksum] of [qsum.data] digests (section 4.2, scalar fallback): a
    fixed-width representation for the numeric types, in which the two
    floating-point zeros have the same bytes; the content of a byte string;
    the encoded text of a string.  A value with no encoding is refused. *)
Definition to_bytes (obj : value) (obj_type : pytype) : result bytes :=
  match obj_type, obj with
  | t_bytes, (VBytes b | VBytearray b) => Ok b
  | t_bytearray, (VBytes b | VBytearray b) => Ok b
  | t_str, VStr s => Ok (utf8 s)
  | t_bool, VBool b => Ok [if b then x01 else x00]
  | t_int, VInt z =>
      if ((- 2 ^ 63 <=? z) && (z <? 2 ^ 63))%Z then Ok (big_endian 8 z)
      else Raise QSumInvalidDataTypeException
  | t_float, VFloat f => Ok (big_endian 8 (float_bits f))
  | t_complex, VComplex re im =>
      Ok (big_endian 8 (float_bits re) ++ big_endian 8 (float_bits im))
  | t_type, VType t => Ok (utf8 (type_name t))
  | t_NoneType, VNone => Ok []
  | t_ellipsis, VEllipsis => Ok []
  | _, _ => Raise QSumInvalidDataTypeException
  end.

(** Modelled from the spec: [data_checksum] of [qsum.data], the digest of
    the canonical bytes of the value; when a type is passed as
    [checksum_type] (the prefix is that of the unregistered types) the
    identity of that type is part of the digested bytes (section 4.2). *)
Definition data_checksum_model (digest : bytes -> bytes) (obj : value)
    (obj_type : pytype) (checksum_type : option pytype) : result bytes :=
  let* data := to_bytes obj obj_type in
  Ok (digest (match checksum_type with
              | Some t => utf8 (type_name t) ++ data
              | None => data
              end)).

(** [data_checksum] is the digest, by the algorithm named, of the
    canonical bytes of the value. *)
Definition data_checksum_digests_canonical_bytes (I : Imports)
    (digest : HashAlgoType -> bytes -> bytes) : Prop :=
  forall (obj : value) (obj_type : pytype) (hash_algo : HashAlgoType)
         (checksum_type : option pytype),
    data_checksum obj obj_type hash_algo checksum_type =
    data_checksum_model (digest hash_algo) obj obj_type checksum_type.

(** Modelled from the spec: [UNREGISTERED_TYPE_PREFIX] and
    [SPECIAL_PREFIXES], which [logic.py] and the tests import from
    [type_map.py] and which the table read here does not define.  Section 3
    reserves, besides the invalid prefix, one more prefix for the
    unregistered types, different from every prefix of the table; the value
    taken here is the neighbour of the invalid prefix. *)
Definition MODEL_UNREGISTERED_TYPE_PREFIX : bytes := [xff; xfe].

Definition SPECIAL_PREFIXES : list bytes :=
  [RESERVED_INVALID_PREFIX; MODEL_UNREGISTERED_TYPE_PREFIX].

(** Modelled from the spec: the entry of [ChecksumCollection] in
    [TYPE_TO_PREFIX], which [Checksum.__add__] reads through
    [type_to_prefix] and which the table read here does not have.  Section
    4.3 tags the sum of two checksums with the prefix of a type of its own,
    a collection of checksums, distinct from any data type; section 3 keeps
    the prefixes of the table and the reserved ones pairwise distinct and
    gives no value.  The value taken here is the first prefix of the group
    [xff], the group of the reserved prefixes. *)
Definition MODEL_CHECKSUM_COLLECTION_PREFIX : bytes := [xff; x00].

(** Modelled from the spec: [type_to_prefix] of [qsum.types.type_logic]
    over a table [registry] (section 4.1): the prefix of a registered type;
    for another type the prefix of the unregistered types when the caller
    allows it and the type derives from a supported container; a refusal
    otherwise. *)
Definition type_to_prefix_model (registry : list (pytype * bytes))
    (containers : list pytype) (unregistered : bytes)
    (the_type : pytype) (allow_unregistered : option bool) : result bytes :=
  match dict_get pytype_eqb the_type registry with
  | Some p => Ok p
  | None =>
      match allow_unregistered with
      | Some true =>
          if existsb (issubclass the_type) containers then Ok unregistered
          else Raise UnsupportedType
      | _ => Raise UnsupportedType
      end
  end.

Module Sample.

(** Three non-cryptographic digests: Fletcher's 16-bit checksum, the
    8-bit sum of the bytes, and the digest that does not read its input
    and is two zero bytes. *)
Inductive algo : Type := fletcher16 | sum8 | zero16.

Definition fletcher16_digest (data : bytes) : bytes :=
  let step (s : Z * Z) (x : byte) :=
    let s1 := ((fst s + Z_of_byte x) mod 255)%Z in
    (s1, ((snd s + s1) mod 255)%Z) in
  let s := fold_left step data (0%Z, 0%Z) in
  [byte_of_N (Z.to_N (snd s)); byte_of_N (Z.to_N (fst s))].

Definition sum8_digest (data : bytes) : bytes :=
  [byte_of_N (Z.to_N (fold_left (fun s x => (s + Z_of_byte x) mod 256)%Z data 0%Z))].

Definition digest (a : algo) : bytes -> bytes :=
  match a with
  | fletcher16 => fletcher16_digest
  | sum8 => sum8_digest
  | zero16 => fun _ => [x00; x00]
  end.

(** The table of [type_map.py], and after it entries for the types that
    [logic.py] and the tests handle and the table lacks. *)
Definition registry : list (pytype * bytes) :=
  TYPE_TO_PREFIX ++
  [ (t_NoneType, [x00; x08]);
    (t_ellipsis, [x00; x09]);
    (t_function, [x00; x0a]);
    (t_set, [x01; x04]);
    (t_frozenset, [x01; x05]);
    (t_ChecksumCollection, MODEL_CHECKSUM_COLLECTION_PREFIX) ].

(** The distributions of the environment and their versions. *)
Definition installed : list (string * string) :=
  [ ("pytest", "7.4.3"); ("setuptools", "68.2.2"); ("python", "3.11.6") ]%string.

Definition resolve_dependency (name : string) : result string :=
  match assoc name installed with
  | Some version => Ok (name ++ "==" ++ version)%string
  | None => Raise QSumInvalidDependsOn
  end.

Fixpoint insert_string (s : string) (l : list string) : list string :=
  match l with
  | [] => [s]
  | x :: l' =>
      if String.eqb s x then l
      else if String.leb s x then s :: l
      else x :: insert_string s l'
  end.

(** The resolved dependencies, each once and in the order of the
    strings, whatever the collection they were given in. *)
Definition resolve (depends_on : list string) : result value :=
  let* resolved := mapM resolve_dependency depends_on in
  Ok (VTuple (map VStr (fold_right insert_string [] resolved))).

Definition containers : list pytype :=
  [t_tuple; t_list; t_deque; t_dict; t_set; t_frozenset].

#[export] Instance imports : Imports := {|
  HashAlgoType := algo;
  DependsOnType := list string;
  DEFAULT_HASH_ALGO := fletcher16;
  DEFAULT_ALLOW_UNREGISTERED := false;
  CONTAINER_TYPES := containers;
  MAPPABLE_CONTAINER_TYPES := [t_tuple; t_list; t_deque; t_set; t_frozenset];
  UNORDERED_CONTAINER_TYPES := [t_set; t_frozenset];
  ALL_SUBCLASS_TYPES := containers;
  UNREGISTERED_TYPE_PREFIX := MODEL_UNREGISTERED_TYPE_PREFIX;
  is_sub_class := fun t classes => existsb (issubclass t) classes;
  resolve_dependencies := resolve;
  data_checksum := fun obj obj_type hash_algo checksum_type =>
    data_checksum_model (digest hash_algo) obj obj_type checksum_type;
  type_to_prefix :=
    type_to_prefix_model registry containers MODEL_UNREGISTERED_TYPE_PREFIX
|}.

End Sample.

(** ** Proof steps *)

(** From [H : (let* x := m in k) = Ok b]: the call [m] returned some [x],
    and [H : k x = Ok b]. *)
Ltac bind_inv H :=
  let x := fresh "x" in
  let Hx := fresh "Hx" in
  let H' := fresh "H" in
  match type of H with
  | bind ?m ?k = Ok ?b =>
      assert (H' : exists a, m = Ok a /\ k a = Ok b)
        by (revert H; case m; cbn [bind]; [eauto|discriminate]);
      clear H; destruct H' as [x [Hx H]]; cbv beta in H
  end.

(** A list of constructors has no duplicates. *)
Ltac nodup_by_cases :=
  repeat (apply NoDup_cons; [simpl; intuition discriminate|]); apply NoDup_nil.

(** * Properties *)

(** ** Byte strings and their order *)

Lemma bytes_eqb_eq (a b : bytes) : bytes_eqb a b = true <-> a = b.
Proof.
  revert b; induction a as [|x a IH]; intros [|y b]; simpl; split;
    try discriminate; try reflexivity.
  - intros H. apply andb_true_iff in H as [Hx Hab].
    apply Byte.byte_dec_bl in Hx. apply IH in Hab. now subst.
  - intros H. injection H as -> ->. apply andb_true_iff. split.
    + now apply Byte.byte_dec_lb.
    + now apply IH.
Qed.

Lemma bytes_eqb_refl (a : bytes) : bytes_eqb a a = true.
Proof. now apply bytes_eqb_eq. Qed.

Lemma to_N_inj (x y : byte) : Byte.to_N x = Byte.to_N y -> x = y.
Proof.
  intros H. pose proof (Byte.of_to_N x) as Hx. pose proof (Byte.of_to_N y) as Hy.
  rewrite H in Hx. congruence.
Qed.

Lemma bytes_leb_total (a b : bytes) : bytes_leb a b = true \/ bytes_leb b a = true.
Proof.
  revert b; induction a as [|x a IH]; intros [|y b]; simpl; auto.
  destruct (N.ltb_spec (Byte.to_N x) (Byte.to_N y)) as [Hlt|Hge]; auto.
  destruct (N.ltb_spec (Byte.to_N y) (Byte.to_N x)) as [Hlt'|Hge']; auto.
  assert (E : Byte.to_N x = Byte.to_N y) by lia.
  rewrite E, N.eqb_refl. apply IH.
Qed.

Lemma bytes_leb_antisym (a b : bytes) :
  bytes_leb a b = true -> bytes_leb b a = true -> a = b.
Proof.
  revert b; induction a as [|x a IH]; intros [|y b]; simpl; try discriminate; auto.
  destruct (N.ltb_spec (Byte.to_N x) (Byte.to_N y)) as [Hlt|Hge].
  - destruct (N.ltb_spec (Byte.to_N y) (Byte.to_N x)); [lia|].
    destruct (N.eqb_spec (Byte.to_N y) (Byte.to_N x)); [lia|discriminate].
  - destruct (N.eqb_spec (Byte.to_N x) (Byte.to_N y)) as [E|]; [|discriminate].
    rewrite E, N.ltb_irrefl, N.eqb_refl. intros H1 H2.
    apply to_N_inj in E. subst y. f_equal. now apply IH.
Qed.

Lemma bytes_leb_trans (a b c : bytes) :
  bytes_leb a b = true -> bytes_leb b c = true -> bytes_leb a c = true.
Proof.
  revert b c; induction a as [|x a IH]; intros [|y b] [|z c]; simpl;
    try discriminate; auto.
  destruct (N.ltb_spec (Byte.to_N x) (Byte.to_N y)) as [Hxy|Hxy];
    destruct (N.ltb_spec (Byte.to_N y) (Byte.to_N z)) as [Hyz|Hyz];
    destruct (N.ltb_spec (Byte.to_N x) (Byte.to_N z)) as [Hxz|Hxz];
    auto; try lia;
    destruct (N.eqb_spec (Byte.to_N x) (Byte.to_N y));
    destruct (N.eqb_spec (Byte.to_N y) (Byte.to_N z));
    destruct (N.eqb_spec (Byte.to_N x) (Byte.to_N z));
    try discriminate; try lia; eauto.
Qed.

(** ** Sorting *)

Lemma insert_sorted_permutation (x : bytes) (l : list bytes) :
  Permutation (x :: l) (insert_sorted x l).
Proof.
  induction l as [|y l IH]; simpl; [reflexivity|].
  destruct (bytes_leb x y); [reflexivity|].
  etransitivity; [apply perm_swap|]. now constructor.
Qed.

Lemma sorted_permutation (l : list bytes) : Permutation l (sorted l).
Proof.
  induction l as [|x l IH]; simpl; [constructor|].
  etransitivity; [|apply insert_sorted_permutation]. now constructor.
Qed.

Lemma insert_sorted_strongly_sorted (x : bytes) (l : list bytes) :
  StronglySorted bytes_le l -> StronglySorted bytes_le (insert_sorted x l).
Proof.
  induction 1 as [|y l S IH F]; simpl.
  - repeat constructor.
  - destruct (bytes_leb x y) eqn:E.
    + constructor; [now constructor|]. constructor; [exact E|].
      eapply Forall_impl; [|exact F]. intros z Hz.
      eapply bytes_leb_trans; eassumption.
    + constructor; [exact IH|].
      assert (Hyx : bytes_le y x).
      { destruct (bytes_leb_total x y) as [H|H]; [congruence|exact H]. }
      eapply Permutation_Forall; [apply insert_sorted_permutation|].
      now constructor.
Qed.

Lemma sorted_strongly_sorted (l : list bytes) : StronglySorted bytes_le (sorted l).
Proof.
  induction l as [|x l IH]; simpl; [constructor|].
  now apply insert_sorted_strongly_sorted.
Qed.

(** A list of byte strings has one sorted arrangement. *)
Lemma strongly_sorted_unique (l1 l2 : list bytes) :
  StronglySorted bytes_le l1 -> StronglySorted bytes_le l2 ->
  Permutation l1 l2 -> l1 = l2.
Proof.
  revert l2; induction l1 as [|a l1 IH]; intros l2 S1 S2 P.
  - apply Permutation_nil in P. now subst.
  - destruct l2 as [|b l2].
    { apply Permutation_sym, Permutation_nil in P. discriminate. }
    apply StronglySorted_inv in S1 as [S1 F1].
    apply StronglySorted_inv in S2 as [S2 F2].
    assert (E : a = b).
    { assert (Ia : In a (b :: l2)) by (eapply Permutation_in; [exact P|now left]).
      assert (Ib : In b (a :: l1))
        by (eapply Permutation_in; [apply Permutation_sym; exact P|now left]).
      destruct Ia as [->|Ia]; [reflexivity|].
      destruct Ib as [->|Ib]; [reflexivity|].
      rewrite Forall_forall in F1, F2.
      apply bytes_leb_antisym; [apply F1|apply F2]; assumption. }
    subst b. f_equal. apply IH; auto.
    eapply Permutation_cons_inv; exact P.
Qed.

(** Sorting forgets the order in which the elements were given. *)
Lemma sorted_perm_eq (l1 l2 : list bytes) :
  Permutation l1 l2 -> sorted l1 = sorted l2.
Proof.
  intros P. apply strongly_sorted_unique; try apply sorted_strongly_sorted.
  eapply Permutation_trans; [apply Permutation_sym, sorted_permutation|].
  eapply Permutation_trans; [exact P|apply sorted_permutation].
Qed.

Lemma bytearray_join_empty (l : list bytes) : bytearray_join [] l = List.concat l.
Proof.
  destruct l as [|x l]; [reflexivity|]. simpl. f_equal.
  induction l as [|y l IH]; [reflexivity|]. simpl. now rewrite IH.
Qed.

(** ** Types *)

Lemma pytype_eqb_eq (a b : pytype) : pytype_eqb a b = true <-> a = b.
Proof.
  revert b; induction a; intros []; simpl; split; intros H;
    try reflexivity; try discriminate.
  - apply andb_true_iff in H as [Hn Hb].
    apply String.eqb_eq in Hn. apply IHa in Hb. now subst.
  - injection H as -> ->. apply andb_true_iff. split.
    + apply String.eqb_refl.
    + now apply IHa.
Qed.

(** ** The error monad and the comprehensions *)

Lemma mapM_map {A B C : Type} (g : A -> B) (f : B -> result C) (l : list A) :
  mapM f (map g l) = mapM (fun x => f (g x)) l.
Proof. induction l as [|x l IH]; simpl; [reflexivity|]. now rewrite IH. Qed.

(** The loop that appends the checksum of each element to a buffer leaves
    the buffer followed by the checksums in order. *)
Lemma foldM_append {A : Type} (f : A -> result bytes) (l : list A) (acc : bytes) :
  foldM (fun acc x => let* c := f x in Ok (acc ++ c)) l acc =
  let* cs := mapM f l in Ok (acc ++ List.concat cs).
Proof.
  revert acc; induction l as [|x l IH]; intros acc; simpl.
  - now rewrite app_nil_r.
  - destruct (f x) as [c|e]; simpl; [|reflexivity].
    rewrite IH. destruct (mapM f l) as [cs|e]; simpl; [|reflexivity].
    now rewrite app_assoc.
Qed.

Lemma same_up_to_order_trans {B : Type} (r1 r2 r3 : result (list B)) :
  same_up_to_order r1 r2 -> same_up_to_order r2 r3 -> same_up_to_order r1 r3.
Proof.
  destruct r1, r2, r3; simpl; try tauto. apply Permutation_trans.
Qed.

Lemma mapM_permutation {A B : Type} (f : A -> result B) (l1 l2 : list A) :
  Permutation l1 l2 -> same_up_to_order (mapM f l1) (mapM f l2).
Proof.
  induction 1 as [|x l1 l2 P IH|x y l|l1 l2 l3 P12 IH12 P23 IH23].
  - simpl. constructor.
  - simpl. destruct (f x); simpl; [|exact I].
    destruct (mapM f l1), (mapM f l2); simpl in *; try tauto.
    now constructor.
  - simpl. destruct (f x), (f y); simpl; try exact I;
      destruct (mapM f l); simpl; try exact I.
    apply perm_swap.
  - eapply same_up_to_order_trans; eassumption.
Qed.



(** ** Dicts *)

Lemma dict_get_In {V : Type} (t : pytype) (v : V) (d : list (pytype * V)) :
  dict_get pytype_eqb t d = Some v -> In (t, v) d.
Proof.
  induction d as [|[k w] d IH]; simpl; [discriminate|].
  destruct (pytype_eqb k t) eqn:E.
  - apply pytype_eqb_eq in E. intros H. injection H as ->. subst. now left.
  - intros H. right. now apply IH.
Qed.

Lemma dict_get_app {V : Type} (t : pytype) (v : V) (d d' : list (pytype * V)) :
  dict_get pytype_eqb t d = Some v -> dict_get pytype_eqb t (d ++ d') = Some v.
Proof.
  induction d as [|[k w] d IH]; simpl; [discriminate|].
  destruct (pytype_eqb k t); auto.
Qed.

Lemma In_same_key {K V : Type} (d : list (K * V)) (k : K) (v w : V) :
  NoDup (dict_keys d) -> In (k, v) d -> In (k, w) d -> v = w.
Proof.
  unfold dict_keys. induction d as [|[k' v'] d IH]; simpl; [tauto|].
  intros N Hv Hw. apply NoDup_cons_iff in N as [Hk N].
  destruct Hv as [Hv|Hv], Hw as [Hw|Hw].
  - congruence.
  - injection Hv as -> ->. exfalso. apply Hk.
    change k with (fst (k, w)). now apply in_map.
  - injection Hw as -> ->. exfalso. apply Hk.
    change k with (fst (k, v)). now apply in_map.
  - now apply IH.
Qed.

Lemma In_same_value {K V : Type} (d : list (K * V)) (k k' : K) (v : V) :
  NoDup (dict_values d) -> In (k, v) d -> In (k', v) d -> k = k'.
Proof.
  unfold dict_values. induction d as [|[k0 v0] d IH]; simpl; [tauto|].
  intros N Hk Hk'. apply NoDup_cons_iff in N as [Hv N].
  destruct Hk as [Hk|Hk], Hk' as [Hk'|Hk'].
  - congruence.
  - injection Hk as -> ->. exfalso. apply Hv.
    change v with (snd (k', v)). now apply in_map.
  - injection Hk' as -> ->. exfalso. apply Hv.
    change v with (snd (k, v)). now apply in_map.
  - now apply IH.
Qed.

(** ** The prefix table *)

Lemma TYPE_TO_PREFIX_keys_NoDup : NoDup (dict_keys TYPE_TO_PREFIX).
Proof. unfold dict_keys, TYPE_TO_PREFIX. simpl. nodup_by_cases. Qed.

Lemma prefixes_NoDup : NoDup (dict_values TYPE_TO_PREFIX ++ SPECIAL_PREFIXES).
Proof.
  unfold dict_values, TYPE_TO_PREFIX, SPECIAL_PREFIXES, RESERVED_INVALID_PREFIX,
    MODEL_UNREGISTERED_TYPE_PREFIX.
  simpl. nodup_by_cases.
Qed.

Lemma TYPE_TO_PREFIX_values_NoDup : NoDup (dict_values TYPE_TO_PREFIX).
Proof. exact (NoDup_app_remove_r _ _ prefixes_NoDup). Qed.

Lemma TYPE_TO_PREFIX_lengths (t : pytype) (p : bytes) :
  dict_get pytype_eqb t TYPE_TO_PREFIX = Some p -> List.length p = PREFIX_BYTES.
Proof.
  intros H. apply dict_get_In in H. unfold TYPE_TO_PREFIX in H. simpl in H.
  repeat (destruct H as [H|H]; [injection H as <- <-; reflexivity|]).
  contradiction.
Qed.

(** In the table two different types have different prefixes. *)
Lemma TYPE_TO_PREFIX_injective (t1 t2 : pytype) (p : bytes) :
  dict_get pytype_eqb t1 TYPE_TO_PREFIX = Some p ->
  dict_get pytype_eqb t2 TYPE_TO_PREFIX = Some p -> t1 = t2.
Proof.
  intros H1 H2. apply dict_get_In in H1, H2.
  eapply In_same_value; eauto using TYPE_TO_PREFIX_values_NoDup.
Qed.

Lemma firstn_prefix (p d : bytes) : firstn (List.length p) (p ++ d) = p.
Proof.
  rewrite firstn_app, firstn_all, Nat.sub_diag. simpl. apply app_nil_r.
Qed.

(** The inverse table gives back the type of every prefix of the table. *)
Lemma PREFIX_TO_TYPE_inverse (t : pytype) (p : bytes) :
  dict_get pytype_eqb t TYPE_TO_PREFIX = Some p ->
  dict_get bytes_eqb p PREFIX_TO_TYPE = Some t.
Proof.
  intros H. apply dict_get_In in H. unfold TYPE_TO_PREFIX in H. simpl in H.
  repeat (destruct H as [H|H]; [injection H as <- <-; reflexivity|]).
  contradiction.
Qed.

Lemma getattr_raises (obj : value) (name : string) (e : exception) :
  getattr obj name = Raise e -> e = AttributeError.
Proof.
  destruct obj; simpl; intros H; try (injection H as <-; reflexivity).
  - destruct (assoc name attrs); [discriminate|]. now injection H as <-.
  - destruct (name =? "checksum_bytes")%string; [discriminate|].
    now injection H as <-.
  - destruct (assoc name attrs); [discriminate|]. now injection H as <-.
Qed.

(** C5. In the table of [type_map.py] every type has one prefix, of two
    bytes; the prefixes of the table and the two reserved ones are pairwise
    different; the invalid prefix is 0xFFFF and no type of the table has
    it; the prefix of the unregistered types is none of the table and is
    not the invalid one. *)
Theorem prefix_table_invariants :
  NoDup (dict_keys TYPE_TO_PREFIX)
  /\ (forall t p q, In (t, p) TYPE_TO_PREFIX -> In (t, q) TYPE_TO_PREFIX -> p = q)
  /\ Forall (fun p => List.length p = PREFIX_BYTES)
       (dict_values TYPE_TO_PREFIX ++ SPECIAL_PREFIXES)
  /\ NoDup (dict_values TYPE_TO_PREFIX ++ SPECIAL_PREFIXES)
  /\ RESERVED_INVALID_PREFIX = [xff; xff]
  /\ ~ In RESERVED_INVALID_PREFIX (dict_values TYPE_TO_PREFIX)
  /\ ~ In MODEL_UNREGISTERED_TYPE_PREFIX (dict_values TYPE_TO_PREFIX)
  /\ MODEL_UNREGISTERED_TYPE_PREFIX <> RESERVED_INVALID_PREFIX.
Proof.
  split; [exact TYPE_TO_PREFIX_keys_NoDup|].
  split; [intros t p q; apply In_same_key, TYPE_TO_PREFIX_keys_NoDup|].
  split; [repeat constructor|].
  split; [exact prefixes_NoDup|].
  split; [reflexivity|].
  repeat split; try discriminate;
    unfold dict_values, TYPE_TO_PREFIX; simpl; intuition discriminate.
Qed.

(** ** Hexadecimal text *)

Lemma fromhex_chars_byte (x : byte) (rest : list ascii) :
  fromhex_chars
    (hex_digit (Byte.to_N x / 16) :: hex_digit (Byte.to_N x mod 16) :: rest) =
  let* bs := fromhex_chars rest in Ok (x :: bs).
Proof. destruct x; reflexivity. Qed.

Lemma fromhex_chars_hex (b : bytes) :
  fromhex_chars
    (flat_map (fun x => [hex_digit (Byte.to_N x / 16);
                         hex_digit (Byte.to_N x mod 16)]) b) = Ok b.
Proof.
  induction b as [|x b IH]; [reflexivity|].
  cbn [flat_map app]. now rewrite fromhex_chars_byte, IH.
Qed.

(** X4. The hexadecimal text of a byte string reads back as the byte string;
    so wrapping the hexadecimal text of a [Checksum] gives the [Checksum],
    and a [Checksum] equals its bytes, its hexadecimal text and itself. *)
Theorem checksum_hex_text_round_trip (c : Checksum) :
  fromhex (hex (_checksum_bytes c)) = Ok (_checksum_bytes c)
  /\ from_checksum (VStr (Checksum_hex c)) = Ok c
  /\ from_checksum (VBytes (checksum_bytes c)) = Ok c
  /\ from_checksum (VChecksum c) = Ok c
  /\ __eq__ c (VBytes (checksum_bytes c)) = Ok true
  /\ __eq__ c (VStr (Checksum_hex c)) = Ok true
  /\ __eq__ c (VChecksum c) = Ok true.
Proof.
  assert (E : fromhex (hex (_checksum_bytes c)) = Ok (_checksum_bytes c)).
  { unfold fromhex, hex. rewrite list_ascii_of_string_of_list_ascii.
    apply fromhex_chars_hex. }
  destruct c as [b]. unfold from_checksum, Checksum_hex, checksum_bytes, __eq__ in *.
  cbn [_checksum_to_bytes _checksum_bytes] in *.
  repeat split; try exact E; try (now rewrite E).
  - cbn. now rewrite bytes_eqb_refl.
  - cbn. now rewrite String.eqb_refl.
  - cbn. now rewrite bytes_eqb_refl.
Qed.

(** ** The checksum of an unordered container *)

Section Properties.
Context {I : Imports}.

(** One step of [_checksum] on a type that is a mappable and unordered
    container: the checksums of the elements, sorted, joined and
    digested under the prefix of [checksum_type]. *)
Lemma _checksum_unordered depth obj obj_type checksum_type hash_algo au :
  is_sub_class obj_type CONTAINER_TYPES = true ->
  is_sub_class obj_type MAPPABLE_CONTAINER_TYPES = true ->
  is_sub_class obj_type UNORDERED_CONTAINER_TYPES = true ->
  _checksum (S depth) obj obj_type checksum_type hash_algo au None =
  let* obj_items := iter obj in
  let* checksums :=
    mapM (fun obj_item => checksum depth obj_item hash_algo au None) obj_items in
  let* prefix := type_to_prefix checksum_type (Some au) in
  let* digest :=
    data_checksum (VBytearray (List.concat (sorted checksums))) t_bytes hash_algo
      (if bytes_eqb prefix UNREGISTERED_TYPE_PREFIX
       then Some checksum_type else None) in
  Ok (prefix ++ digest).
Proof.
  intros Hc Hm Hu. simpl. rewrite Hc, Hm, Hu.
  destruct (iter obj) as [obj_items|e]; simpl; [|reflexivity].
  unfold checksum.
  destruct (mapM _ obj_items) as [checksums|e]; simpl; [|reflexivity].
  now rewrite bytearray_join_empty.
Qed.

(** One step of [_checksum] on a type that is a mappable container and not
    an unordered one: the checksums of the elements in iteration order. *)
Lemma _checksum_ordered depth obj obj_type checksum_type hash_algo au :
  is_sub_class obj_type CONTAINER_TYPES = true ->
  is_sub_class obj_type MAPPABLE_CONTAINER_TYPES = true ->
  is_sub_class obj_type UNORDERED_CONTAINER_TYPES = false ->
  _checksum (S depth) obj obj_type checksum_type hash_algo au None =
  let* obj_items := iter obj in
  let* checksums :=
    mapM (fun obj_item => checksum depth obj_item hash_algo au None) obj_items in
  let* prefix := type_to_prefix checksum_type (Some au) in
  let* digest :=
    data_checksum (VBytearray (List.concat checksums)) t_bytes hash_algo
      (if bytes_eqb prefix UNREGISTERED_TYPE_PREFIX
       then Some checksum_type else None) in
  Ok (prefix ++ digest).
Proof.
  intros Hc Hm Hu. simpl. rewrite Hc, Hm, Hu.
  destruct (iter obj) as [obj_items|e]; simpl; [|reflexivity].
  rewrite (foldM_append
             (fun obj_item => _checksum depth obj_item (type_of obj_item)
                                (type_of obj_item) hash_algo au None)).
  unfold checksum.
  destruct (mapM _ obj_items) as [checksums|e]; reflexivity.
Qed.

(** One step of [_checksum] on a type that derives from [dict] and is not
    a mappable container: the items, as a set, under the type of the dict. *)
Lemma _checksum_dict depth obj obj_type checksum_type hash_algo au :
  is_sub_class obj_type CONTAINER_TYPES = true ->
  is_sub_class obj_type MAPPABLE_CONTAINER_TYPES = false ->
  is_sub_class obj_type [t_dict] = true ->
  _checksum (S depth) obj obj_type checksum_type hash_algo au None =
  let* obj_items := items obj in
  _checksum depth obj_items t_set obj_type hash_algo au None.
Proof. intros Hc Hm Hd. simpl. now rewrite Hc, Hm, Hd. Qed.

(** One step of [_checksum] on a 2-tuple, when [tuple] is a mappable
    container and not an unordered one: the checksum of the first element
    joined with the checksum of the second. *)
Lemma _checksum_pair depth a b checksum_type hash_algo au :
  is_sub_class t_tuple CONTAINER_TYPES = true ->
  is_sub_class t_tuple MAPPABLE_CONTAINER_TYPES = true ->
  is_sub_class t_tuple UNORDERED_CONTAINER_TYPES = false ->
  _checksum (S depth) (VTuple [a; b]) t_tuple checksum_type hash_algo au None =
  let* c_a := checksum depth a hash_algo au None in
  let* c_b := checksum depth b hash_algo au None in
  let* prefix := type_to_prefix checksum_type (Some au) in
  let* digest :=
    data_checksum (VBytearray (c_a ++ c_b)) t_bytes hash_algo
      (if bytes_eqb prefix UNREGISTERED_TYPE_PREFIX
       then Some checksum_type else None) in
  Ok (prefix ++ digest).
Proof.
  intros Hc Hm Hu. rewrite _checksum_ordered by assumption.
  cbn [VTuple iter bind mapM].
  destruct (checksum depth a hash_algo au None) as [c_a|e]; cbn [bind];
    [|reflexivity].
  destruct (checksum depth b hash_algo au None) as [c_b|e]; cbn [bind];
    [|reflexivity].
  cbn [List.concat]. now rewrite app_nil_r.
Qed.

Lemma sorted_checksums_permutation {A : Type} (f : A -> result bytes)
    (k : bytes -> result bytes) (l1 l2 : list A) :
  Permutation l1 l2 ->
  returned (let* cs := mapM f l1 in k (List.concat (sorted cs))) =
  returned (let* cs := mapM f l2 in k (List.concat (sorted cs))).
Proof.
  intros P. pose proof (mapM_permutation f P) as H.
  destruct (mapM f l1) as [cs1|e1], (mapM f l2) as [cs2|e2]; simpl in *;
    try contradiction; [|reflexivity].
  now rewrite (sorted_perm_eq H).
Qed.


(** C2. The checksum of a dict (a value of a class that derives from
    [dict] and is not a mappable container type) is the checksum of its
    items as an unordered container under the type of the dict: each item
    is checksummed as the 2-tuple (key, value), an ordered container whose
    checksum digests the checksum of the key joined with the checksum of
    the value; the checksums of the items are sorted as byte strings (in
    ascending order, none lost and none added), joined and digested, and
    the digest follows the prefix of the class of the dict.  So two dicts of the same class with the same items in
    different orders have the same checksum: both calls return the same
    bytes, or both raise. *)
Theorem dict_checksum_order_independent depth cls kvs1 kvs2 hash_algo au :
  is_sub_class cls CONTAINER_TYPES = true ->
  is_sub_class cls MAPPABLE_CONTAINER_TYPES = false ->
  is_sub_class cls [t_dict] = true ->
  is_sub_class t_set CONTAINER_TYPES = true ->
  is_sub_class t_set MAPPABLE_CONTAINER_TYPES = true ->
  is_sub_class t_set UNORDERED_CONTAINER_TYPES = true ->
  Permutation kvs1 kvs2 ->
  checksum (S (S depth)) (VDict cls kvs1) hash_algo au None =
    _checksum (S depth) (VDictItems kvs1) t_set cls hash_algo au None
  /\ checksum (S (S depth)) (VDict cls kvs1) hash_algo au None =
    (let* checksums :=
       mapM (fun kv => checksum depth (VTuple [fst kv; snd kv]) hash_algo au None)
         kvs1 in
     let* prefix := type_to_prefix cls (Some au) in
     let* digest :=
       data_checksum (VBytearray (List.concat (sorted checksums))) t_bytes
         hash_algo
         (if bytes_eqb prefix UNREGISTERED_TYPE_PREFIX then Some cls else None) in
     Ok (prefix ++ digest))
  /\ (is_sub_class t_tuple CONTAINER_TYPES = true ->
      is_sub_class t_tuple MAPPABLE_CONTAINER_TYPES = true ->
      is_sub_class t_tuple UNORDERED_CONTAINER_TYPES = false ->
      forall n k v,
        checksum (S n) (VTuple [k; v]) hash_algo au None =
        (let* c_k := checksum n k hash_algo au None in
         let* c_v := checksum n v hash_algo au None in
         let* prefix := type_to_prefix t_tuple (Some au) in
         let* digest :=
           data_checksum (VBytearray (c_k ++ c_v)) t_bytes hash_algo
             (if bytes_eqb prefix UNREGISTERED_TYPE_PREFIX
              then Some t_tuple else None) in
         Ok (prefix ++ digest)))
  /\ (forall checksums : list bytes,
        StronglySorted bytes_le (sorted checksums) /\
        Permutation checksums (sorted checksums))
  /\ returned (checksum (S (S depth)) (VDict cls kvs1) hash_algo au None) =
     returned (checksum (S (S depth)) (VDict cls kvs2) hash_algo au None).
Proof.
  intros Hc Hm Hd Hsc Hsm Hsu P.
  assert (E1 : forall kvs, checksum (S (S depth)) (VDict cls kvs) hash_algo au None =
    _checksum (S depth) (VDictItems kvs) t_set cls hash_algo au None).
  { intros kvs. unfold checksum. cbn [type_of].
    now rewrite _checksum_dict by assumption. }
  assert (E2 : forall kvs,
    _checksum (S depth) (VDictItems kvs) t_set cls hash_algo au None =
    (let* checksums :=
       mapM (fun kv => checksum depth (VTuple [fst kv; snd kv]) hash_algo au None)
         kvs in
     let* prefix := type_to_prefix cls (Some au) in
     let* digest :=
       data_checksum (VBytearray (List.concat (sorted checksums))) t_bytes
         hash_algo
         (if bytes_eqb prefix UNREGISTERED_TYPE_PREFIX then Some cls else None) in
     Ok (prefix ++ digest))).
  { intros kvs. rewrite _checksum_unordered by assumption.
    cbn [iter bind]. now rewrite mapM_map. }
  split; [apply E1|]. split; [now rewrite E1, E2|].
  split; [intros Htc Htm Htu n k v; now apply _checksum_pair|].
  split; [intros checksums; split;
          [apply sorted_strongly_sorted|apply sorted_permutation]|].
  rewrite !E1, !E2.
  apply (sorted_checksums_permutation
           (fun kv => checksum depth (VTuple [fst kv; snd kv]) hash_algo au None)
           (fun joined =>
              let* prefix := type_to_prefix cls (Some au) in
              let* digest :=
                data_checksum (VBytearray joined) t_bytes hash_algo
                  (if bytes_eqb prefix UNREGISTERED_TYPE_PREFIX
                   then Some cls else None) in
              Ok (prefix ++ digest)) P).
Qed.

(** ** Every checksum starts with the prefix of its type *)

Lemma _checksum_collection_prefix depth obj obj_type checksum_type hash_algo au c :
  is_collection obj = true ->
  _checksum depth obj obj_type checksum_type hash_algo au None = Ok c ->
  exists flag p d, type_to_prefix checksum_type flag = Ok p /\ c = p ++ d.
Proof.
  intros Hobj H. destruct depth as [|depth]; [discriminate|].
  simpl in H.
  destruct (is_sub_class obj_type CONTAINER_TYPES).
  - destruct (is_sub_class obj_type MAPPABLE_CONTAINER_TYPES).
    + bind_inv H. bind_inv H. bind_inv H. injection H as <-. eauto.
    + destruct (is_sub_class obj_type [t_dict]); [|discriminate].
      destruct obj; try discriminate.
  - destruct (is_sub_class obj_type [t_function]).
    + destruct obj; discriminate.
    + bind_inv H. bind_inv H. injection H as <-. eauto.
Qed.

Lemma checksum_prefix depth obj hash_algo au depends_on c :
  checksum depth obj hash_algo au depends_on = Ok c ->
  exists flag p d, type_to_prefix (type_of obj) flag = Ok p /\ c = p ++ d.
Proof.
  unfold checksum. intros H. destruct depth as [|depth]; [discriminate|].
  simpl in H. destruct depends_on as [depends_on|].
  - bind_inv H. eapply _checksum_collection_prefix; [|exact H]. reflexivity.
  - destruct (is_sub_class (type_of obj) CONTAINER_TYPES).
    + destruct (is_sub_class (type_of obj) MAPPABLE_CONTAINER_TYPES).
      * bind_inv H. bind_inv H. bind_inv H. injection H as <-. eauto.
      * destruct (is_sub_class (type_of obj) [t_dict]); [|discriminate].
        bind_inv H. destruct obj; try discriminate.
        injection Hx as <-.
        eapply _checksum_collection_prefix; [|exact H]. reflexivity.
    + destruct (is_sub_class (type_of obj) [t_function]).
      * destruct obj; try discriminate.
        eapply _checksum_collection_prefix; [|exact H]. reflexivity.
      * bind_inv H. bind_inv H. injection H as <-. eauto.
Qed.

(** ** The depth of the recursion

    A checksum that was returned within some depth is returned, the same,
    within every greater depth. *)



(** ** Dependencies *)

(** With dependencies, [checksum] resolves them and checksums the 2-tuple
    of the value and the resolved dependencies under the type of the
    value; the checksums of the two elements are taken without
    dependencies. *)
Lemma checksum_depends_on depth obj hash_algo au depends_on :
  is_sub_class t_tuple CONTAINER_TYPES = true ->
  is_sub_class t_tuple MAPPABLE_CONTAINER_TYPES = true ->
  is_sub_class t_tuple UNORDERED_CONTAINER_TYPES = false ->
  checksum (S (S depth)) obj hash_algo au (Some depends_on) =
  let* resolved_deps := resolve_dependencies depends_on in
  let* c_obj := checksum depth obj hash_algo au None in
  let* c_deps := checksum depth resolved_deps hash_algo au None in
  let* prefix := type_to_prefix (type_of obj) (Some au) in
  let* digest :=
    data_checksum (VBytearray (c_obj ++ c_deps)) t_bytes hash_algo
      (if bytes_eqb prefix UNREGISTERED_TYPE_PREFIX
       then Some (type_of obj) else None) in
  Ok (prefix ++ digest).
Proof.
  intros Hc Hm Hu. unfold checksum at 1.
  change (_checksum (S (S depth)) obj (type_of obj) (type_of obj) hash_algo au
            (Some depends_on))
    with (let* resolved_deps := resolve_dependencies depends_on in
          _checksum (S depth) (VTuple [obj; resolved_deps]) t_tuple (type_of obj)
            hash_algo au None).
  destruct (resolve_dependencies depends_on) as [resolved_deps|e]; cbn [bind];
    [|reflexivity].
  now apply _checksum_pair.
Qed.


(** C4 (amended). Whenever a dependency collection is passed, an empty
    one too, [checksum] folds it in once, at the top: the result is the
    prefix of the type of the value followed by the digest of the checksum
    of the value joined with the checksum of the resolved dependencies,
    both taken without dependencies.  Only without a dependency collection
    is the result the checksum of the value alone. *)
Theorem dependency_folding_at_top_level depth obj hash_algo au :
  is_sub_class t_tuple CONTAINER_TYPES = true ->
  is_sub_class t_tuple MAPPABLE_CONTAINER_TYPES = true ->
  is_sub_class t_tuple UNORDERED_CONTAINER_TYPES = false ->
  (forall depends_on,
     checksum (S (S depth)) obj hash_algo au (Some depends_on) =
     let* resolved_deps := resolve_dependencies depends_on in
     let* c_obj := checksum depth obj hash_algo au None in
     let* c_deps := checksum depth resolved_deps hash_algo au None in
     let* prefix := type_to_prefix (type_of obj) (Some au) in
     let* digest :=
       data_checksum (VBytearray (c_obj ++ c_deps)) t_bytes hash_algo
         (if bytes_eqb prefix UNREGISTERED_TYPE_PREFIX
          then Some (type_of obj) else None) in
     Ok (prefix ++ digest))
  /\ (forall depends_on,
       checksum (S depth) obj hash_algo au (Some depends_on) =
       let* resolved_deps := resolve_dependencies depends_on in
       _checksum depth (VTuple [obj; resolved_deps]) t_tuple (type_of obj)
         hash_algo au None)
  /\ checksum depth obj hash_algo au None =
     _checksum depth obj (type_of obj) (type_of obj) hash_algo au None.
Proof.
  intros Hc Hm Hu. split; [|split].
  - intros depends_on. now apply checksum_depends_on.
  - reflexivity.
  - reflexivity.
Qed.

(** C6. Two values of different types of the table have different
    checksums: each checksum starts with the prefix of the type of its
    value, and the two prefixes differ. *)
Theorem different_types_different_checksums depth_a depth_b a b hash_algo_a
    hash_algo_b au_a au_b depends_on_a depends_on_b p_a p_b c_a c_b :
  registered_types_keep_their_prefix I ->
  dict_get pytype_eqb (type_of a) TYPE_TO_PREFIX = Some p_a ->
  dict_get pytype_eqb (type_of b) TYPE_TO_PREFIX = Some p_b ->
  type_of a <> type_of b ->
  checksum depth_a a hash_algo_a au_a depends_on_a = Ok c_a ->
  checksum depth_b b hash_algo_b au_b depends_on_b = Ok c_b ->
  firstn PREFIX_BYTES c_a = p_a /\ firstn PREFIX_BYTES c_b = p_b
  /\ p_a <> p_b /\ c_a <> c_b.
Proof.
  intros Hreg Ha Hb Hne Hca Hcb.
  destruct (checksum_prefix _ _ _ _ _ Hca) as (fa & pa & da & Hpa & ->).
  destruct (checksum_prefix _ _ _ _ _ Hcb) as (fb & pb & db & Hpb & ->).
  rewrite (Hreg _ _ _ Ha) in Hpa. injection Hpa as <-.
  rewrite (Hreg _ _ _ Hb) in Hpb. injection Hpb as <-.
  assert (Fa : firstn PREFIX_BYTES (p_a ++ da) = p_a)
    by (rewrite <- (TYPE_TO_PREFIX_lengths _ Ha); apply firstn_prefix).
  assert (Fb : firstn PREFIX_BYTES (p_b ++ db) = p_b)
    by (rewrite <- (TYPE_TO_PREFIX_lengths _ Hb); apply firstn_prefix).
  assert (N : p_a <> p_b).
  { intros E. subst p_b. apply Hne. eapply TYPE_TO_PREFIX_injective; eassumption. }
  repeat split; try assumption.
  intros E. apply N. rewrite <- Fa, <- Fb. now rewrite E.
Qed.

(** ** The [Checksum] class *)

Lemma add_checksums depth (a b : Checksum) :
  __add__ depth a (VChecksum b) =
  let* c := _checksum depth (VBytes (checksum_bytes a ++ checksum_bytes b)) t_bytes
              t_ChecksumCollection DEFAULT_HASH_ALGO DEFAULT_ALLOW_UNREGISTERED
              None in
  Ok (mkChecksum c).
Proof.
  unfold __add__. cbn [getattr String.eqb Ascii.eqb Bool.eqb bind py_bytes_add].
  unfold checksum_bytes.
  destruct (_checksum depth _ t_bytes t_ChecksumCollection _ _ None); reflexivity.
Qed.

Lemma _checksum_scalar depth obj obj_type checksum_type hash_algo au :
  is_sub_class obj_type CONTAINER_TYPES = false ->
  is_sub_class obj_type [t_function] = false ->
  _checksum (S depth) obj obj_type checksum_type hash_algo au None =
  let* prefix := type_to_prefix checksum_type None in
  let* digest :=
    data_checksum obj obj_type hash_algo
      (if bytes_eqb prefix UNREGISTERED_TYPE_PREFIX
       then Some checksum_type else None) in
  Ok (prefix ++ digest).
Proof. intros Hc Hf. simpl. now rewrite Hc, Hf. Qed.


(** C9. Comparing a [Checksum] with an operand that is no [bytes], no
    [str] and has no attribute [checksum_bytes] raises [AttributeError]. *)
Theorem eq_with_other_operand_raises (self : Checksum) (other : value) :
  isinstance other t_bytes = false ->
  isinstance other t_str = false ->
  hasattr other "checksum_bytes" = false ->
  __eq__ self other = Raise AttributeError.
Proof.
  intros Hb Hs Ha. unfold __eq__. rewrite Hb, Hs.
  unfold hasattr in Ha.
  destruct (getattr other "checksum_bytes") as [v|e] eqn:E; [discriminate|].
  apply getattr_raises in E. now subst.
Qed.

(** C10. Whatever hash algorithms the two [Checksum] objects were made
    with, their sum is computed by [_checksum] with the default hash
    algorithm, and its digest by [data_checksum] with that algorithm. *)
Theorem add_uses_default_hash_algo depth depth_a depth_b obj_a obj_b
    hash_algo_a hash_algo_b au_a au_b depends_on_a depends_on_b (a b : Checksum) :
  is_sub_class t_bytes CONTAINER_TYPES = false ->
  is_sub_class t_bytes [t_function] = false ->
  __init__ depth_a obj_a false hash_algo_a au_a depends_on_a = Ok a ->
  __init__ depth_b obj_b false hash_algo_b au_b depends_on_b = Ok b ->
  __add__ (S depth) a (VChecksum b) =
    (let* c := _checksum (S depth) (VBytes (checksum_bytes a ++ checksum_bytes b))
                 t_bytes t_ChecksumCollection DEFAULT_HASH_ALGO
                 DEFAULT_ALLOW_UNREGISTERED None in
     Ok (mkChecksum c))
  /\ __add__ (S depth) a (VChecksum b) =
    (let* prefix := type_to_prefix t_ChecksumCollection None in
     let* digest :=
       data_checksum (VBytes (checksum_bytes a ++ checksum_bytes b)) t_bytes
         DEFAULT_HASH_ALGO
         (if bytes_eqb prefix UNREGISTERED_TYPE_PREFIX
          then Some t_ChecksumCollection else None) in
     Ok (mkChecksum (prefix ++ digest))).
Proof.
  intros Hc Hf _ _. split; [apply add_checksums|].
  rewrite add_checksums, _checksum_scalar by assumption.
  destruct (type_to_prefix t_ChecksumCollection None) as [prefix|e]; cbn [bind];
    [|reflexivity].
  destruct (data_checksum _ t_bytes DEFAULT_HASH_ALGO _); reflexivity.
Qed.

(** X1. A checksum starts with the prefix that [type_to_prefix] gives the
    type of the value. *)
Theorem checksum_starts_with_type_prefix depth obj hash_algo au depends_on c :
  checksum depth obj hash_algo au depends_on = Ok c ->
  exists flag p d, type_to_prefix (type_of obj) flag = Ok p /\ c = p ++ d.
Proof. apply checksum_prefix. Qed.

(** X2. When the prefix of the checksum type is the prefix of the
    unregistered types, the checksum type is passed to [data_checksum], and
    only then:
    for a value that is no container and no function, and for a mappable
    container. *)
Theorem unregistered_prefix_passes_type depth obj obj_type checksum_type
    hash_algo au c :
  _checksum depth obj obj_type checksum_type hash_algo au None = Ok c ->
  (is_sub_class obj_type CONTAINER_TYPES = false ->
   is_sub_class obj_type [t_function] = false ->
   exists prefix digest,
     type_to_prefix checksum_type None = Ok prefix
     /\ data_checksum obj obj_type hash_algo
          (if bytes_eqb prefix UNREGISTERED_TYPE_PREFIX
           then Some checksum_type else None) = Ok digest
     /\ c = prefix ++ digest)
  /\ (is_sub_class obj_type CONTAINER_TYPES = true ->
      is_sub_class obj_type MAPPABLE_CONTAINER_TYPES = true ->
      exists checksum_bytes prefix digest,
        type_to_prefix checksum_type (Some au) = Ok prefix
        /\ data_checksum (VBytearray checksum_bytes) t_bytes hash_algo
             (if bytes_eqb prefix UNREGISTERED_TYPE_PREFIX
              then Some checksum_type else None) = Ok digest
        /\ c = prefix ++ digest).
Proof.
  intros H. destruct depth as [|depth]; [discriminate|]. simpl in H. split.
  - intros Hc Hf. rewrite Hc, Hf in H.
    bind_inv H. bind_inv H. injection H as <-. eauto.
  - intros Hc Hm. rewrite Hc, Hm in H.
    bind_inv H. bind_inv H. bind_inv H. injection H as <-. eauto 6.
Qed.

(** X3. Wrapping the checksum of a value and taking the hexadecimal text
    of the wrapper is [checksum_hex] of the value. *)
Theorem from_checksum_hex_is_checksum_hex depth obj hash_algo :
  (let* c := checksum depth obj hash_algo DEFAULT_ALLOW_UNREGISTERED None in
   let* wrapped := from_checksum (VBytes c) in
   Ok (Checksum_hex wrapped)) =
  checksum_hex depth obj hash_algo.
Proof.
  unfold checksum_hex, from_checksum, Checksum_hex.
  destruct (checksum depth obj hash_algo DEFAULT_ALLOW_UNREGISTERED None);
    reflexivity.
Qed.

End Properties.

(** ** The canonical bytes of a float *)

(** C8. When [data_checksum] digests the canonical bytes of the value, the
    positive and the negative floating-point zero have the same checksum. *)
Theorem float_zeros_same_checksum (I : Imports)
    (digest : HashAlgoType -> bytes -> bytes) depth hash_algo au :
  data_checksum_digests_canonical_bytes I digest ->
  checksum depth (VFloat (S754_zero false)) hash_algo au None =
  checksum depth (VFloat (S754_zero true)) hash_algo au None.
Proof.
  intros Hd. unfold checksum. cbn [type_of].
  destruct depth as [|depth]; [reflexivity|]. simpl.
  destruct (is_sub_class t_float CONTAINER_TYPES); [reflexivity|].
  destruct (is_sub_class t_float [t_function]); [reflexivity|].
  destruct (type_to_prefix t_float None) as [prefix|e]; [|reflexivity].
  cbn [bind]. now rewrite !Hd.
Qed.

(** ** Stripping whitespace *)

Lemma list_ascii_of_string_app (s1 s2 : string) :
  list_ascii_of_string (s1 ++ s2) = list_ascii_of_string s1 ++ list_ascii_of_string s2.
Proof. induction s1 as [|c s1 IH]; simpl; [reflexivity|]. now rewrite IH. Qed.

Lemma lstrip_spaces (p l : list ascii) :
  forallb is_space p = true -> lstrip (p ++ l) = lstrip l.
Proof.
  induction p as [|c p IH]; simpl; [reflexivity|].
  intros H. apply andb_true_iff in H as [Hc Hp]. rewrite Hc. now apply IH.
Qed.

Lemma lstrip_all_spaces (p : list ascii) :
  forallb is_space p = true -> lstrip p = [].
Proof.
  intros H. rewrite <- (app_nil_r p). now rewrite lstrip_spaces.
Qed.

Lemma forallb_rev {A : Type} (f : A -> bool) (l : list A) :
  forallb f (rev l) = forallb f l.
Proof.
  induction l as [|x l IH]; [reflexivity|].
  simpl. rewrite forallb_app, IH. simpl. rewrite andb_true_r. apply andb_comm.
Qed.

(** Whitespace after a text that is not all whitespace stays; after
    whitespace it goes with it. *)
Lemma lstrip_app (l p : list ascii) :
  forallb is_space p = true ->
  lstrip (l ++ p) = match lstrip l with
                    | [] => []
                    | _ :: _ => lstrip l ++ p
                    end.
Proof.
  intros Hp. induction l as [|c l IH]; simpl.
  - now apply lstrip_all_spaces.
  - destruct (is_space c); [exact IH|reflexivity].
Qed.

Lemma strip_padded (before s after : string) :
  forallb is_space (list_ascii_of_string before) = true ->
  forallb is_space (list_ascii_of_string after) = true ->
  strip (before ++ s ++ after) = strip s.
Proof.
  intros Hb Ha. unfold strip. f_equal.
  rewrite !list_ascii_of_string_app, lstrip_spaces by assumption.
  rewrite lstrip_app by assumption.
  destruct (lstrip (list_ascii_of_string s)) as [|c l] eqn:E; [reflexivity|].
  rewrite rev_app_distr, lstrip_spaces; [reflexivity|].
  now rewrite forallb_rev.
Qed.

(** ** Containers, element by element *)

Lemma mapM_Forall2 {A B : Type} (f : A -> result B) (l1 l2 : list A) :
  Forall2 (fun x y => f x = f y) l1 l2 -> mapM f l1 = mapM f l2.
Proof.
  induction 1 as [|x y l1 l2 E F IH]; [reflexivity|].
  simpl. now rewrite E, IH.
Qed.

Lemma mapM_Ok_Forall {A B : Type} (f : A -> result B) (l : list A) (ys : list B) :
  mapM f l = Ok ys -> Forall (fun x => exists y, f x = Ok y) l.
Proof.
  revert ys; induction l as [|x l IH]; intros ys H; [constructor|].
  simpl in H. bind_inv H. bind_inv H. constructor; eauto.
Qed.

Lemma mapM_first_raise {A B : Type} (f : A -> result B) (l1 l2 : list A) (x : A)
    (e : exception) :
  Forall (fun y => exists c, f y = Ok c) l1 -> f x = Raise e ->
  mapM f (l1 ++ x :: l2) = Raise e.
Proof.
  induction 1 as [|y l1 [c Hy] F IH]; intros Hx; simpl.
  - now rewrite Hx.
  - rewrite Hy. cbn [bind]. now rewrite IH.
Qed.

Section Containers.
Context {I : Imports}.

(** The checksum of a collection of a mappable container type, unordered
    or not: [arrange] is [sorted] for an unordered type and leaves the list
    as it is otherwise. *)
Lemma checksum_mappable depth cls l hash_algo au :
  is_sub_class cls CONTAINER_TYPES = true ->
  is_sub_class cls MAPPABLE_CONTAINER_TYPES = true ->
  checksum (S depth) (VColl cls l) hash_algo au None =
  let arrange := if is_sub_class cls UNORDERED_CONTAINER_TYPES
                 then sorted else (fun checksums => checksums) in
  let* checksums :=
    mapM (fun obj_item => checksum depth obj_item hash_algo au None) l in
  let* prefix := type_to_prefix cls (Some au) in
  let* digest :=
    data_checksum (VBytearray (List.concat (arrange checksums))) t_bytes hash_algo
      (if bytes_eqb prefix UNREGISTERED_TYPE_PREFIX then Some cls else None) in
  Ok (prefix ++ digest).
Proof.
  intros Hc Hm. unfold checksum at 1. cbn [type_of].
  destruct (is_sub_class cls UNORDERED_CONTAINER_TYPES) eqn:Hu.
  - now rewrite _checksum_unordered by assumption.
  - now rewrite _checksum_ordered by assumption.
Qed.

(** X5. The checksum of a collection of a mappable container type depends
    on the elements through their checksums only: two collections of the
    same class whose elements have, one by one, the same checksum have the
    same checksum. *)
Theorem container_checksum_congruence depth cls l1 l2 hash_algo au :
  is_sub_class cls CONTAINER_TYPES = true ->
  is_sub_class cls MAPPABLE_CONTAINER_TYPES = true ->
  Forall2 (fun x y => checksum depth x hash_algo au None =
                      checksum depth y hash_algo au None) l1 l2 ->
  checksum (S depth) (VColl cls l1) hash_algo au None =
  checksum (S depth) (VColl cls l2) hash_algo au None.
Proof.
  intros Hc Hm F. rewrite !checksum_mappable by assumption. cbv zeta.
  now rewrite (mapM_Forall2 _ F).
Qed.

(** X6. The checksum of a collection of a mappable container type is
    returned only when the checksum of every element is returned; when an
    element raises and the elements before it return, the collection
    raises the exception of that element. *)
Theorem container_checksum_needs_every_element depth cls l hash_algo au :
  is_sub_class cls CONTAINER_TYPES = true ->
  is_sub_class cls MAPPABLE_CONTAINER_TYPES = true ->
  (forall c,
     checksum (S depth) (VColl cls l) hash_algo au None = Ok c ->
     Forall (fun x => exists c_x, checksum depth x hash_algo au None = Ok c_x) l)
  /\ (forall l1 x l2 e,
        l = l1 ++ x :: l2 ->
        Forall (fun y => exists c_y, checksum depth y hash_algo au None = Ok c_y)
          l1 ->
        checksum depth x hash_algo au None = Raise e ->
        checksum (S depth) (VColl cls l) hash_algo au None = Raise e).
Proof.
  intros Hc Hm. rewrite !checksum_mappable by assumption. cbv zeta. split.
  - intros c H. bind_inv H. eapply mapM_Ok_Forall; eassumption.
  - intros l1 x l2 e -> F Hx.
    erewrite mapM_first_raise; [reflexivity|exact F|exact Hx].
Qed.

(** X7. A collection with no element or with one element: whether its
    type is an unordered container or not, the digested bytes are the
    empty byte string, or the checksum of the element. *)
Theorem small_container_checksum depth cls hash_algo au :
  is_sub_class cls CONTAINER_TYPES = true ->
  is_sub_class cls MAPPABLE_CONTAINER_TYPES = true ->
  checksum (S depth) (VColl cls []) hash_algo au None =
    (let* prefix := type_to_prefix cls (Some au) in
     let* digest :=
       data_checksum (VBytearray []) t_bytes hash_algo
         (if bytes_eqb prefix UNREGISTERED_TYPE_PREFIX then Some cls else None) in
     Ok (prefix ++ digest))
  /\ (forall x,
        checksum (S depth) (VColl cls [x]) hash_algo au None =
        (let* c_x := checksum depth x hash_algo au None in
         let* prefix := type_to_prefix cls (Some au) in
         let* digest :=
           data_checksum (VBytearray c_x) t_bytes hash_algo
             (if bytes_eqb prefix UNREGISTERED_TYPE_PREFIX
              then Some cls else None) in
         Ok (prefix ++ digest))).
Proof.
  intros Hc Hm. split.
  - rewrite checksum_mappable by assumption. cbv zeta. cbn [mapM bind].
    destruct (is_sub_class cls UNORDERED_CONTAINER_TYPES); reflexivity.
  - intros x. rewrite checksum_mappable by assumption. cbv zeta. cbn [mapM].
    destruct (checksum depth x hash_algo au None) as [c_x|e]; cbn [bind];
      [|reflexivity].
    destruct (is_sub_class cls UNORDERED_CONTAINER_TYPES);
      cbn [sorted fold_right insert_sorted List.concat]; now rewrite app_nil_r.
Qed.

End Containers.

(** ** The checksum type and the length of a checksum *)

Section ChecksumType.
Context {I : Imports}.

(** X8. For a value that [_checksum] handles as a scalar or as a mappable
    container, the checksum type decides the prefix and nothing else: under
    another checksum type, both types having a prefix of their own, the
    digest is the same. *)
Theorem checksum_type_changes_only_prefix depth obj obj_type checksum_type_1
    checksum_type_2 hash_algo au p_1 p_2 c_1 :
  (is_sub_class obj_type CONTAINER_TYPES = true /\
   is_sub_class obj_type MAPPABLE_CONTAINER_TYPES = true)
  \/ (is_sub_class obj_type CONTAINER_TYPES = false /\
      is_sub_class obj_type [t_function] = false) ->
  (forall flag, type_to_prefix checksum_type_1 flag = Ok p_1) ->
  (forall flag, type_to_prefix checksum_type_2 flag = Ok p_2) ->
  bytes_eqb p_1 UNREGISTERED_TYPE_PREFIX = false ->
  bytes_eqb p_2 UNREGISTERED_TYPE_PREFIX = false ->
  _checksum depth obj obj_type checksum_type_1 hash_algo au None = Ok c_1 ->
  exists digest,
    c_1 = p_1 ++ digest
    /\ _checksum depth obj obj_type checksum_type_2 hash_algo au None
       = Ok (p_2 ++ digest).
Proof.
  intros Hk H1 H2 U1 U2 H. destruct depth as [|depth]; [discriminate|].
  simpl in H |- *. destruct Hk as [[Hc Hm]|[Hc Hf]].
  - rewrite Hc, Hm in H |- *. bind_inv H. rewrite Hx. cbn [bind].
    rewrite H1 in H. rewrite H2. cbn [bind] in H |- *. rewrite U1 in H.
    rewrite U2. bind_inv H. injection H as <-. rewrite Hx0. cbn [bind]. eauto.
  - rewrite Hc, Hf in H |- *.
    rewrite H1 in H. rewrite H2. cbn [bind] in H |- *. rewrite U1 in H.
    rewrite U2. bind_inv H. injection H as <-. rewrite Hx. cbn [bind]. eauto.
Qed.

(** X9. With dependencies, and for a type that derives from [dict] or is a
    function type, [_checksum] does not read its checksum type: the prefix
    is that of [obj_type]. *)
Theorem checksum_type_not_read depth obj obj_type checksum_type_1 checksum_type_2
    hash_algo au depends_on :
  depends_on <> None
  \/ (is_sub_class obj_type CONTAINER_TYPES = true /\
      is_sub_class obj_type MAPPABLE_CONTAINER_TYPES = false)
  \/ (is_sub_class obj_type CONTAINER_TYPES = false /\
      is_sub_class obj_type [t_function] = true) ->
  _checksum depth obj obj_type checksum_type_1 hash_algo au depends_on =
  _checksum depth obj obj_type checksum_type_2 hash_algo au depends_on.
Proof.
  intros Hk. destruct depth as [|depth]; [reflexivity|]. simpl.
  destruct depends_on as [depends_on|]; [reflexivity|].
  destruct Hk as [Hd|[[Hc Hm]|[Hc Hf]]]; [congruence| |].
  - now rewrite Hc, Hm.
  - now rewrite Hc, Hf.
Qed.

Lemma _checksum_collection_parts depth obj obj_type checksum_type hash_algo au c :
  is_collection obj = true ->
  _checksum depth obj obj_type checksum_type hash_algo au None = Ok c ->
  exists flag p data data_type k d,
    type_to_prefix checksum_type flag = Ok p
    /\ data_checksum data data_type hash_algo k = Ok d /\ c = p ++ d.
Proof.
  intros Hobj H. destruct depth as [|depth]; [discriminate|].
  simpl in H.
  destruct (is_sub_class obj_type CONTAINER_TYPES).
  - destruct (is_sub_class obj_type MAPPABLE_CONTAINER_TYPES).
    + bind_inv H. bind_inv H. bind_inv H. injection H as <-. eauto 10.
    + destruct (is_sub_class obj_type [t_dict]); [|discriminate].
      destruct obj; try discriminate.
  - destruct (is_sub_class obj_type [t_function]).
    + destruct obj; discriminate.
    + bind_inv H. bind_inv H. injection H as <-. eauto 10.
Qed.

Lemma checksum_parts depth obj hash_algo au depends_on c :
  checksum depth obj hash_algo au depends_on = Ok c ->
  exists flag p data data_type k d,
    type_to_prefix (type_of obj) flag = Ok p
    /\ data_checksum data data_type hash_algo k = Ok d /\ c = p ++ d.
Proof.
  unfold checksum. intros H. destruct depth as [|depth]; [discriminate|].
  simpl in H. destruct depends_on as [depends_on|].
  - bind_inv H. eapply _checksum_collection_parts; [|exact H]. reflexivity.
  - destruct (is_sub_class (type_of obj) CONTAINER_TYPES).
    + destruct (is_sub_class (type_of obj) MAPPABLE_CONTAINER_TYPES).
      * bind_inv H. bind_inv H. bind_inv H. injection H as <-. eauto 10.
      * destruct (is_sub_class (type_of obj) [t_dict]); [|discriminate].
        bind_inv H. destruct obj; try discriminate.
        injection Hx as <-.
        eapply _checksum_collection_parts; [|exact H]. reflexivity.
    + destruct (is_sub_class (type_of obj) [t_function]).
      * destruct obj; try discriminate.
        eapply _checksum_collection_parts; [|exact H]. reflexivity.
      * bind_inv H. bind_inv H. injection H as <-. eauto 10.
Qed.

(** The digest is all that tells a checksum with dependencies from the
    checksum without: under a hash algorithm whose digest does not depend
    on the bytes it is given, the two are the same bytes, whatever the
    value, its bytes and what the dependencies resolve to. *)
Lemma constant_digest_hides_dependencies depth depth' obj hash_algo au
    depends_on p d c c' :
  (forall flag p', type_to_prefix (type_of obj) flag = Ok p' -> p' = p) ->
  (forall data data_type k d',
     data_checksum data data_type hash_algo k = Ok d' -> d' = d) ->
  checksum depth obj hash_algo au (Some depends_on) = Ok c ->
  checksum depth' obj hash_algo au None = Ok c' ->
  c = c'.
Proof.
  intros Hp Hd H H'.
  destruct (checksum_parts _ _ _ _ _ H)
    as (flag & p1 & data & data_type & k & d1 & Ep & Ed & ->).
  destruct (checksum_parts _ _ _ _ _ H')
    as (flag' & p2 & data' & data_type' & k' & d2 & Ep' & Ed' & ->).
  now rewrite (Hp _ _ Ep), (Hp _ _ Ep'), (Hd _ _ _ _ Ed), (Hd _ _ _ _ Ed').
Qed.

(** X10. When every prefix has [PREFIX_BYTES] bytes and every digest of the
    hash algorithm has [n] bytes, every checksum has [PREFIX_BYTES + n]
    bytes, whatever the value and however deep its containers are. *)
Theorem checksum_length depth obj hash_algo au depends_on c n :
  (forall t flag p, type_to_prefix t flag = Ok p -> List.length p = PREFIX_BYTES) ->
  (forall data data_type k d,
     data_checksum data data_type hash_algo k = Ok d -> List.length d = n) ->
  checksum depth obj hash_algo au depends_on = Ok c ->
  List.length c = PREFIX_BYTES + n.
Proof.
  intros Hp Hd H.
  destruct (checksum_parts _ _ _ _ _ H)
    as (flag & p & data & data_type & k & d & Ep & Ed & ->).
  rewrite length_app. now rewrite (Hp _ _ _ Ep), (Hd _ _ _ _ Ed).
Qed.

End ChecksumType.

(** ** Wrapping, comparing and adding checksums *)

Lemma hex_injective (a b : bytes) : hex a = hex b -> a = b.
Proof.
  intros E.
  assert (Ha : fromhex (hex a) = Ok a)
    by (unfold fromhex, hex; rewrite list_ascii_of_string_of_list_ascii;
        apply fromhex_chars_hex).
  assert (Hb : fromhex (hex b) = Ok b)
    by (unfold fromhex, hex; rewrite list_ascii_of_string_of_list_ascii;
        apply fromhex_chars_hex).
  rewrite E in Ha. congruence.
Qed.

Lemma bytes_eqb_sym (a b : bytes) : bytes_eqb a b = bytes_eqb b a.
Proof.
  destruct (bytes_eqb a b) eqn:E.
  - apply bytes_eqb_eq in E. subst. symmetry. apply bytes_eqb_refl.
  - destruct (bytes_eqb b a) eqn:E'; [|reflexivity].
    apply bytes_eqb_eq in E'. subst. now rewrite bytes_eqb_refl in E.
Qed.

Lemma string_eqb_longer (s : string) (c : ascii) : String.eqb s (String c s) = false.
Proof.
  revert c; induction s as [|a s IH]; intros c; [reflexivity|].
  simpl. destruct (Ascii.eqb a c); [apply IH|reflexivity].
Qed.

Lemma fromhex_chars_hex_app (b : bytes) (rest : list ascii) :
  fromhex_chars
    (flat_map (fun x => [hex_digit (Byte.to_N x / 16);
                         hex_digit (Byte.to_N x mod 16)]) b ++ rest) =
  let* bs := fromhex_chars rest in Ok (b ++ bs).
Proof.
  induction b as [|x b IH].
  - simpl. now destruct (fromhex_chars rest).
  - cbn [flat_map app]. rewrite fromhex_chars_byte, IH.
    now destruct (fromhex_chars rest).
Qed.

Lemma fromhex_chars_raises (s : list ascii) (e : exception) :
  fromhex_chars s = Raise e -> e = ValueError.
Proof.
  remember (List.length s) as n eqn:En. revert s En.
  induction n as [n IH] using lt_wf_ind. intros s En H.
  destruct s as [|c s]; [discriminate|]. simpl in H.
  destruct (is_ascii_space c).
  - eapply IH; [|reflexivity|exact H]. subst n. simpl. lia.
  - destruct (hex_value c); [|congruence].
    destruct s as [|c' s]; [congruence|].
    destruct (hex_value c'); [|congruence].
    destruct (fromhex_chars s) as [rest|e'] eqn:E; [discriminate|].
    injection H as <-. eapply IH; [|reflexivity|exact E]. subst n. simpl. lia.
Qed.

(** X11. Comparing a [Checksum] compares the bytes: with another
    [Checksum] the answer is [True] exactly for the same bytes, and the
    comparison is symmetric; with a [bytes] object, exactly for the bytes of
    the checksum; with a [str], exactly for its hexadecimal text, so
    comparing with the text of another [Checksum] is comparing with that
    [Checksum]. *)
Theorem eq_compares_bytes (a : Checksum) :
  (forall b, __eq__ a (VChecksum b) = Ok true <-> a = b)
  /\ (forall b, __eq__ a (VChecksum b) = __eq__ b (VChecksum a))
  /\ (forall b, __eq__ a (VBytes b) = Ok true <-> checksum_bytes a = b)
  /\ (forall s, __eq__ a (VStr s) = Ok true <-> s = Checksum_hex a)
  /\ (forall b, __eq__ a (VStr (Checksum_hex b)) = Ok true <-> a = b).
Proof.
  destruct a as [a]. unfold __eq__, Checksum_hex, checksum_bytes.
  cbn [isinstance issubclass type_of mro existsb pytype_eqb orb getattr
       String.eqb Ascii.eqb Bool.eqb bind py_bytes_eq py_str_eq _checksum_bytes].
  repeat split.
  - intros H. injection H as H. apply bytes_eqb_eq in H. destruct b. simpl in H.
    now subst.
  - intros <-. simpl. now rewrite bytes_eqb_refl.
  - intros [b]. simpl. now rewrite bytes_eqb_sym.
  - intros H. injection H as H. now apply bytes_eqb_eq in H.
  - intros <-. now rewrite bytes_eqb_refl.
  - intros H. injection H as H. apply String.eqb_eq in H. now subst.
  - intros ->. now rewrite String.eqb_refl.
  - intros H. injection H as H. apply String.eqb_eq in H.
    apply hex_injective in H. destruct b. simpl in H. now subst.
  - intros <-. simpl. now rewrite String.eqb_refl.
Qed.

(** X12. Comparing with a [str] compares texts, while wrapping a [str]
    reads it: the hexadecimal text of a [Checksum] after a space is wrapped
    into that [Checksum] and is not equal to it. *)
Theorem eq_with_text_is_textual (c : Checksum) :
  from_checksum (VStr (String " " (Checksum_hex c))) = Ok c
  /\ __eq__ c (VStr (String " " (Checksum_hex c))) = Ok false.
Proof.
  destruct c as [b]. unfold from_checksum, __eq__, Checksum_hex. split.
  - cbn [_checksum_to_bytes _checksum_bytes]. unfold fromhex.
    cbn [list_ascii_of_string fromhex_chars].
    change (is_ascii_space " ") with true. cbv iota.
    unfold hex. rewrite list_ascii_of_string_of_list_ascii, fromhex_chars_hex.
    reflexivity.
  - cbn [isinstance issubclass type_of mro existsb pytype_eqb orb py_str_eq
         _checksum_bytes].
    now rewrite string_eqb_longer.
Qed.

(** X15. What [from_checksum] wraps: every [bytes] object as it is, with
    no test of its length or prefix; a [str] that is hexadecimal text, any
    other [str] raising [ValueError] (a text of an odd number of digits
    does); and for an object that is no [bytes], no [str] and no [Checksum]
    (a [bytearray] is none) it raises [QSumInvalidChecksum]. *)
Theorem from_checksum_cases :
  (forall b, from_checksum (VBytes b) = Ok (mkChecksum b))
  /\ (forall s,
        from_checksum (VStr s) = Raise ValueError
        \/ exists b, from_checksum (VStr s) = Ok (mkChecksum b))
  /\ (forall b, from_checksum (VStr (hex b ++ "0")) = Raise ValueError)
  /\ (forall obj,
        isinstance obj t_bytes = false -> isinstance obj t_str = false ->
        isinstance obj t_Checksum = false ->
        from_checksum obj = Raise QSumInvalidChecksum)
  /\ (forall b, from_checksum (VBytearray b) = Raise QSumInvalidChecksum).
Proof.
  unfold from_checksum. repeat split.
  - intros s. cbn [_checksum_to_bytes]. unfold fromhex.
    destruct (fromhex_chars (list_ascii_of_string s)) as [b|e] eqn:E.
    + right. now exists b.
    + left. apply fromhex_chars_raises in E. now subst.
  - intros b. cbn [_checksum_to_bytes]. unfold fromhex, hex.
    rewrite list_ascii_of_string_app, list_ascii_of_string_of_list_ascii.
    now rewrite fromhex_chars_hex_app.
  - intros obj Hb Hs Hc. destruct obj; try reflexivity; discriminate.
Qed.

(** X16. [PREFIX_TO_TYPE] is the inverse of [TYPE_TO_PREFIX]: a prefix
    gives a type exactly when the type gives the prefix, no entry is lost,
    and the invalid prefix gives no type. *)
Theorem PREFIX_TO_TYPE_is_inverse :
  (forall t p,
     dict_get pytype_eqb t TYPE_TO_PREFIX = Some p <->
     dict_get bytes_eqb p PREFIX_TO_TYPE = Some t)
  /\ List.length PREFIX_TO_TYPE = List.length TYPE_TO_PREFIX
  /\ dict_get bytes_eqb RESERVED_INVALID_PREFIX PREFIX_TO_TYPE = None.
Proof.
  split; [|split; reflexivity].
  intros t p. split; [apply PREFIX_TO_TYPE_inverse|].
  intros H.
  assert (In' : In (p, t) PREFIX_TO_TYPE).
  { revert H. generalize PREFIX_TO_TYPE. intros d.
    induction d as [|[k w] d IH]; simpl; [discriminate|].
    destruct (bytes_eqb k p) eqn:E.
    - apply bytes_eqb_eq in E. intros H. injection H as ->. subst. now left.
    - intros H. right. now apply IH. }
  vm_compute in In'.
  repeat (destruct In' as [In'|In']; [injection In' as <- <-; reflexivity|]).
  contradiction.
Qed.

Section Adding.
Context {I : Imports}.

(** X13. The sum of two [Checksum] objects reads the bytes of the first
    joined with the bytes of the second, and not where the first ends: two
    pairs with the same joined bytes have the same sum. *)
Theorem add_reads_joined_bytes depth (a b a' b' : Checksum) :
  checksum_bytes a ++ checksum_bytes b = checksum_bytes a' ++ checksum_bytes b' ->
  __add__ depth a (VChecksum b) = __add__ depth a' (VChecksum b').
Proof. intros E. rewrite !add_checksums. now rewrite E. Qed.

(** X14. The operand of a sum: an object with no attribute
    [checksum_bytes] raises [AttributeError], and so do a [bytes] and a
    [str], which a comparison accepts; an object whose [checksum_bytes] is
    no byte string raises [TypeError]; an object whose [checksum_bytes] is
    a [bytes] adds like the [Checksum] of these bytes.  No checksum is
    computed before the operand is read. *)
Theorem add_operand_cases depth (a : Checksum) :
  (forall other,
     hasattr other "checksum_bytes" = false ->
     __add__ depth a other = Raise AttributeError)
  /\ (forall b, __add__ depth a (VBytes b) = Raise AttributeError)
  /\ (forall s, __add__ depth a (VStr s) = Raise AttributeError)
  /\ (forall other v,
        getattr other "checksum_bytes" = Ok v ->
        (forall b, v <> VBytes b) -> (forall b, v <> VBytearray b) ->
        __add__ depth a other = Raise TypeError)
  /\ (forall other b,
        getattr other "checksum_bytes" = Ok (VBytes b) ->
        __add__ depth a other = __add__ depth a (VChecksum (mkChecksum b))).
Proof.
  unfold __add__. repeat split.
  - intros other H. unfold hasattr in H.
    destruct (getattr other "checksum_bytes") as [v|e] eqn:E; [discriminate|].
    apply getattr_raises in E. now subst.
  - intros other v E Hb Hba. rewrite E. cbn [bind].
    destruct v; try reflexivity; [destruct (Hb b)|destruct (Hba b)]; reflexivity.
  - intros other b E. rewrite E. reflexivity.
Qed.

(** X17. The checksum of a function does not depend on the whitespace
    before and after its source text. *)
Theorem function_checksum_ignores_outer_whitespace depth before source after
    attrs module_name hash_algo au :
  is_sub_class t_function CONTAINER_TYPES = false ->
  is_sub_class t_function [t_function] = true ->
  forallb is_space (list_ascii_of_string before) = true ->
  forallb is_space (list_ascii_of_string after) = true ->
  checksum depth (VFunction (before ++ source ++ after) attrs module_name)
    hash_algo au None =
  checksum depth (VFunction source attrs module_name) hash_algo au None.
Proof.
  intros Hc Hf Hb Ha. unfold checksum. cbn [type_of].
  destruct depth as [|depth]; [reflexivity|]. simpl. rewrite Hc, Hf.
  now rewrite strip_padded.
Qed.

End Adding.

(** ** Order at any depth *)

Lemma returned_bind {A B : Type} (m1 m2 : result A) (k1 k2 : A -> result B) :
  returned m1 = returned m2 ->
  (forall a, returned (k1 a) = returned (k2 a)) ->
  returned (bind m1 k1) = returned (bind m2 k2).
Proof.
  destruct m1, m2; simpl; intros H K; try discriminate; [|reflexivity].
  injection H as ->. apply K.
Qed.

Lemma mapM_returned {A B : Type} (f : A -> result B) (l1 l2 : list A) :
  Forall2 (fun x y => returned (f x) = returned (f y)) l1 l2 ->
  returned (mapM f l1) = returned (mapM f l2).
Proof.
  induction 1 as [|x y l1 l2 E F IH]; [reflexivity|].
  simpl. apply returned_bind; [exact E|]. intros a.
  apply returned_bind; [exact IH|]. reflexivity.
Qed.

Section SameChecksum.
Context {I : Imports}.

(** The checksum of a dict, two steps of [_checksum] at once. *)
Lemma checksum_dict_items depth cls kvs hash_algo au :
  dict_type cls ->
  checksum (S (S depth)) (VDict cls kvs) hash_algo au None =
  let* checksums :=
    mapM (fun kv => checksum depth (VTuple [fst kv; snd kv]) hash_algo au None)
      kvs in
  let* prefix := type_to_prefix cls (Some au) in
  let* digest :=
    data_checksum (VBytearray (List.concat (sorted checksums))) t_bytes hash_algo
      (if bytes_eqb prefix UNREGISTERED_TYPE_PREFIX then Some cls else None) in
  Ok (prefix ++ digest).
Proof.
  intros (Hc & Hm & Hd & (Hsc & Hsm) & Hsu). unfold checksum at 1. cbn [type_of].
  rewrite _checksum_dict by assumption. cbn [items bind].
  rewrite _checksum_unordered by assumption. cbn [iter bind].
  now rewrite mapM_map.
Qed.

Lemma checksum_dict_shallow depth cls kvs hash_algo au :
  dict_type cls -> depth <= 1 ->
  returned (checksum depth (VDict cls kvs) hash_algo au None) = None.
Proof.
  intros (Hc & Hm & Hd & _) Hdepth. unfold checksum. cbn [type_of].
  destruct depth as [|[|depth]]; [reflexivity| |lia].
  now rewrite _checksum_dict by assumption.
Qed.

(** One step of [_checksum] on a function. *)
Lemma _checksum_function depth source attrs module_name obj_type checksum_type
    hash_algo au :
  is_sub_class obj_type CONTAINER_TYPES = false ->
  is_sub_class obj_type [t_function] = true ->
  _checksum (S depth) (VFunction source attrs module_name) obj_type checksum_type
    hash_algo au None =
  _checksum depth
    (VTuple [VStr (strip source); function_dict attrs; VStr module_name])
    t_tuple obj_type hash_algo au None.
Proof. intros Hc Hf. simpl. now rewrite Hc, Hf. Qed.

(** The checksum of a function, two steps of [_checksum] at once. *)
Lemma checksum_function depth source attrs module_name hash_algo au :
  function_type ->
  checksum (S (S depth)) (VFunction source attrs module_name) hash_algo au None =
  let* checksums :=
    mapM (fun obj_item => checksum depth obj_item hash_algo au None)
      [VStr (strip source); function_dict attrs; VStr module_name] in
  let* prefix := type_to_prefix t_function (Some au) in
  let* digest :=
    data_checksum (VBytearray (List.concat checksums)) t_bytes hash_algo
      (if bytes_eqb prefix UNREGISTERED_TYPE_PREFIX
       then Some t_function else None) in
  Ok (prefix ++ digest).
Proof.
  intros (Hc & Hf & (Htc & Htm) & Htu). unfold checksum at 1. cbn [type_of].
  rewrite _checksum_function by assumption.
  now rewrite _checksum_ordered by assumption.
Qed.

Lemma checksum_function_shallow depth source attrs module_name hash_algo au :
  function_type -> depth <= 1 ->
  returned (checksum depth (VFunction source attrs module_name) hash_algo au None)
  = None.
Proof.
  intros (Hc & Hf & _) Hdepth. unfold checksum. cbn [type_of].
  destruct depth as [|[|depth]]; [reflexivity| |lia].
  now rewrite _checksum_function by assumption.
Qed.

Lemma checksum_pair depth a b hash_algo au :
  ordered_type t_tuple ->
  checksum (S depth) (VTuple [a; b]) hash_algo au None =
  let* c_a := checksum depth a hash_algo au None in
  let* c_b := checksum depth b hash_algo au None in
  let* prefix := type_to_prefix t_tuple (Some au) in
  let* digest :=
    data_checksum (VBytearray (c_a ++ c_b)) t_bytes hash_algo
      (if bytes_eqb prefix UNREGISTERED_TYPE_PREFIX then Some t_tuple else None) in
  Ok (prefix ++ digest).
Proof.
  intros ((Hc & Hm) & Hu). unfold checksum at 1.
  now apply _checksum_pair.
Qed.

Lemma returned_pair depth k1 v1 k2 v2 hash_algo au :
  ordered_type t_tuple ->
  (forall d, returned (checksum d k1 hash_algo au None) =
             returned (checksum d k2 hash_algo au None)) ->
  (forall d, returned (checksum d v1 hash_algo au None) =
             returned (checksum d v2 hash_algo au None)) ->
  returned (checksum depth (VTuple [k1; v1]) hash_algo au None) =
  returned (checksum depth (VTuple [k2; v2]) hash_algo au None).
Proof.
  intros Ht Hk Hv. destruct depth as [|depth]; [reflexivity|].
  rewrite !checksum_pair by assumption.
  apply returned_bind; [apply Hk|]. intros c_k.
  apply returned_bind; [apply Hv|]. reflexivity.
Qed.

(** X18. Two values with the same content have the same checksum: both
    calls return the same bytes, or both raise.  The order of the elements
    of an unordered collection, of the items of a dict and of the
    attributes of a function, and the whitespace around the source text of
    a function, do not count, however deep in the value they are. *)
Theorem same_content_same_checksum (x y : value) :
  same_content x y ->
  forall depth hash_algo au,
    returned (checksum depth x hash_algo au None) =
    returned (checksum depth y hash_algo au None).
Proof.
  intros H.
  apply (same_content_mut
           (fun x y => forall depth hash_algo au,
                returned (checksum depth x hash_algo au None) =
                returned (checksum depth y hash_algo au None))
           (fun l1 l2 => forall depth hash_algo au,
                Forall2 (fun x y => returned (checksum depth x hash_algo au None) =
                                    returned (checksum depth y hash_algo au None))
                  l1 l2)
           (fun kvs1 kvs2 => ordered_type t_tuple -> forall depth hash_algo au,
                Forall2 (fun a b =>
                           returned (checksum depth (VTuple [fst a; snd a])
                                       hash_algo au None) =
                           returned (checksum depth (VTuple [fst b; snd b])
                                       hash_algo au None))
                  kvs1 kvs2)); try exact H; clear x y H.
  - reflexivity.
  - intros x y z _ Hxy _ Hyz depth hash_algo au.
    now rewrite Hxy, Hyz.
  - intros cls l1 l2 ((Hc & Hm) & Hu) P depth hash_algo au.
    destruct depth as [|depth]; [reflexivity|].
    rewrite !checksum_mappable by assumption. cbv zeta. rewrite Hu.
    apply (sorted_checksums_permutation
             (fun obj_item => checksum depth obj_item hash_algo au None)
             (fun joined =>
                let* prefix := type_to_prefix cls (Some au) in
                let* digest :=
                  data_checksum (VBytearray joined) t_bytes hash_algo
                    (if bytes_eqb prefix UNREGISTERED_TYPE_PREFIX
                     then Some cls else None) in
                Ok (prefix ++ digest)) P).
  - intros cls l1 l2 (Hc & Hm) _ IH depth hash_algo au.
    destruct depth as [|depth]; [reflexivity|].
    rewrite !checksum_mappable by assumption. cbv zeta.
    apply returned_bind; [apply mapM_returned, IH|]. reflexivity.
  - intros cls kvs1 kvs2 Hd P depth hash_algo au.
    destruct depth as [|[|depth]];
      [now rewrite !checksum_dict_shallow by (assumption || lia)..|].
    rewrite !checksum_dict_items by assumption.
    apply (sorted_checksums_permutation
             (fun kv => checksum depth (VTuple [fst kv; snd kv]) hash_algo au None)
             (fun joined =>
                let* prefix := type_to_prefix cls (Some au) in
                let* digest :=
                  data_checksum (VBytearray joined) t_bytes hash_algo
                    (if bytes_eqb prefix UNREGISTERED_TYPE_PREFIX
                     then Some cls else None) in
                Ok (prefix ++ digest)) P).
  - intros cls kvs1 kvs2 Hd Ht _ IH depth hash_algo au.
    destruct depth as [|[|depth]];
      [now rewrite !checksum_dict_shallow by (assumption || lia)..|].
    rewrite !checksum_dict_items by assumption.
    apply returned_bind; [|reflexivity].
    apply (mapM_returned
             (fun kv => checksum depth (VTuple [fst kv; snd kv]) hash_algo au None)).
    now apply IH.
  - intros source1 source2 attrs1 attrs2 module_name Hf Hs _ IH depth hash_algo au.
    destruct depth as [|[|depth]];
      [now rewrite !checksum_function_shallow by (assumption || lia)..|].
    rewrite !checksum_function by assumption. rewrite Hs.
    apply returned_bind; [|reflexivity].
    apply mapM_returned. repeat constructor. apply IH.
  - intros depth hash_algo au. constructor.
  - intros x y l1 l2 _ Hxy _ IH depth hash_algo au. constructor; [apply Hxy|apply IH].
  - intros _ depth hash_algo au. constructor.
  - intros k1 v1 k2 v2 l1 l2 _ Hk _ Hv _ IH Ht depth hash_algo au.
    constructor; [|now apply IH].
    cbn [fst snd]. now apply returned_pair.
Qed.

End SameChecksum.

(** ** What the prefix alone keeps apart *)

Section Aliases.
Context {I : Imports}.

(** X19. With dependencies the checksum depends on the value through its
    type and its checksum only, and on the dependencies through the
    checksum of what they resolve to; an exception of
    [resolve_dependencies] is the exception of [checksum]. *)
Theorem dependency_checksum_congruence depth x y hash_algo au :
  ordered_type t_tuple ->
  (forall depends_on_x depends_on_y resolved_x resolved_y,
     type_of x = type_of y ->
     checksum depth x hash_algo au None = checksum depth y hash_algo au None ->
     resolve_dependencies depends_on_x = Ok resolved_x ->
     resolve_dependencies depends_on_y = Ok resolved_y ->
     checksum depth resolved_x hash_algo au None =
     checksum depth resolved_y hash_algo au None ->
     checksum (S (S depth)) x hash_algo au (Some depends_on_x) =
     checksum (S (S depth)) y hash_algo au (Some depends_on_y))
  /\ (forall depends_on e,
        resolve_dependencies depends_on = Raise e ->
        checksum (S depth) x hash_algo au (Some depends_on) = Raise e).
Proof.
  intros ((Hc & Hm) & Hu). split.
  - intros dx dy rx ry Ht Hxy Hrx Hry Hr.
    rewrite !checksum_depends_on by assumption.
    rewrite Hrx, Hry. cbn [bind]. now rewrite Ht, Hxy, Hr.
  - intros depends_on e He. unfold checksum. simpl. now rewrite He.
Qed.

(** X20. A dict and the set of its items, as 2-tuples, have the same
    digest: their checksums differ by the prefix only. *)
Theorem dict_checksum_is_set_of_items depth cls kvs hash_algo au p_dict p_set c :
  dict_type cls ->
  (forall flag, type_to_prefix cls flag = Ok p_dict) ->
  (forall flag, type_to_prefix t_set flag = Ok p_set) ->
  bytes_eqb p_dict UNREGISTERED_TYPE_PREFIX = false ->
  bytes_eqb p_set UNREGISTERED_TYPE_PREFIX = false ->
  checksum (S (S depth)) (VDict cls kvs) hash_algo au None = Ok c ->
  exists digest,
    c = p_dict ++ digest
    /\ checksum (S depth) (VSet (map (fun kv => VTuple [fst kv; snd kv]) kvs))
         hash_algo au None
       = Ok (p_set ++ digest).
Proof.
  intros Hd Hpd Hps Ud Us H.
  rewrite checksum_dict_items in H by assumption.
  destruct Hd as (_ & _ & _ & (Hsc & Hsm) & Hsu).
  unfold checksum. cbn [type_of VSet].
  rewrite _checksum_unordered by assumption. cbn [VSet iter bind].
  rewrite mapM_map.
  bind_inv H. rewrite Hx. cbn [bind].
  rewrite Hpd in H. rewrite Hps. cbn [bind] in H |- *.
  rewrite Ud in H. rewrite Us. bind_inv H. injection H as <-.
  rewrite Hx0. cbn [bind]. eauto.
Qed.

(** X21. For a tuple, the checksum with dependencies is the checksum,
    without dependencies, of the 2-tuple made of the tuple and of the
    resolved dependencies. *)
Theorem tuple_with_dependencies_is_pair depth items hash_algo au depends_on
    resolved_deps :
  resolve_dependencies depends_on = Ok resolved_deps ->
  checksum (S depth) (VTuple items) hash_algo au (Some depends_on) =
  checksum depth (VTuple [VTuple items; resolved_deps]) hash_algo au None.
Proof.
  intros Hr. unfold checksum. cbn [type_of VTuple]. simpl. now rewrite Hr.
Qed.

End Aliases.

(** ** The sample environment *)

Lemma sample_registered_types_keep_their_prefix :
  registered_types_keep_their_prefix Sample.imports.
Proof.
  intros t au p H. cbn [type_to_prefix Sample.imports].
  unfold type_to_prefix_model, Sample.registry.
  erewrite dict_get_app; [reflexivity|exact H].
Qed.

Lemma sample_data_checksum :
  data_checksum_digests_canonical_bytes Sample.imports Sample.digest.
Proof. intros obj obj_type hash_algo checksum_type. reflexivity. Qed.

(** ** The theorems at work on the sample environment *)


Lemma dict_checksum_order_independent_witness :
  checksum (I:=Sample.imports) 4
    (VDict t_dict [(VStr "a", VInt 1); (VStr "b", VInt 2)])
    Sample.fletcher16 false None = Ok [x01; x03; x98; x12]
  /\ returned (checksum (I:=Sample.imports) 4
                 (VDict t_dict [(VStr "a", VInt 1); (VStr "b", VInt 2)])
                 Sample.fletcher16 false None) =
     returned (checksum (I:=Sample.imports) 4
                 (VDict t_dict [(VStr "b", VInt 2); (VStr "a", VInt 1)])
                 Sample.fletcher16 false None).
Proof.
  split; [vm_compute; reflexivity|].
  apply (@dict_checksum_order_independent Sample.imports 2 t_dict
           [(VStr "a", VInt 1); (VStr "b", VInt 2)]
           [(VStr "b", VInt 2); (VStr "a", VInt 1)] Sample.fletcher16 false);
    [reflexivity|reflexivity|reflexivity|reflexivity|reflexivity|reflexivity|
     apply perm_swap].
Defined.



(** C4, as stated, fails: the checksum of 123 with the empty dependency
    collection is not the checksum of 123. *)
Lemma empty_dependencies_change_checksum :
  checksum (I:=Sample.imports) 4 (VInt 123) Sample.fletcher16 false (Some [])
    = Ok [x00; x00; x52; xf7]
  /\ checksum (I:=Sample.imports) 4 (VInt 123) Sample.fletcher16 false None
     = Ok [x00; x00; x7b; x7b]
  /\ resolve_dependencies (Imports:=Sample.imports) [] = Ok (VTuple []).
Proof. vm_compute. repeat split. Qed.

Lemma dependency_folding_at_top_level_witness :
  checksum (I:=Sample.imports) 3 (VInt 123) Sample.fletcher16 false (Some [])
  = Ok [x00; x00; x52; xf7].
Proof.
  eapply eq_trans;
    [exact (proj1 (@dependency_folding_at_top_level Sample.imports 1 (VInt 123)
                     Sample.fletcher16 false eq_refl eq_refl eq_refl) [])|].
  vm_compute. reflexivity.
Defined.

Lemma different_types_different_checksums_witness :
  firstn PREFIX_BYTES [x00; x00; x01; x01] = [x00; x00]
  /\ firstn PREFIX_BYTES [x00; x02; x01; x01] = [x00; x02]
  /\ [x00; x00] <> [x00; x02]
  /\ [x00; x00; x01; x01] <> [x00; x02; x01; x01].
Proof.
  apply (@different_types_different_checksums Sample.imports 1 1 (VInt 1)
           (VBool true) Sample.fletcher16 Sample.fletcher16 false false None None
           [x00; x00] [x00; x02] [x00; x00; x01; x01] [x00; x02; x01; x01]);
    [exact sample_registered_types_keep_their_prefix|reflexivity|reflexivity|
     discriminate|vm_compute; reflexivity|vm_compute; reflexivity].
Defined.


Lemma float_zeros_same_checksum_witness :
  checksum (I:=Sample.imports) 1 (VFloat (S754_zero false)) Sample.fletcher16
    false None =
  checksum (I:=Sample.imports) 1 (VFloat (S754_zero true)) Sample.fletcher16
    false None.
Proof.
  exact (@float_zeros_same_checksum Sample.imports Sample.digest 1
           Sample.fletcher16 false sample_data_checksum).
Defined.

Lemma eq_with_other_operand_raises_witness :
  __eq__ (mkChecksum [x00; x00; x01; x02]) (VInt 3) = Raise AttributeError.
Proof.
  apply eq_with_other_operand_raises; reflexivity.
Defined.

Lemma add_uses_default_hash_algo_witness :
  __add__ (I:=Sample.imports) 1 (mkChecksum [x00; x01; x44])
    (VChecksum (mkChecksum [x00; x01; x5c; x36]))
  = Ok (mkChecksum [xff; x00; x4d; xd8]).
Proof.
  eapply eq_trans;
    [exact (proj2 (@add_uses_default_hash_algo Sample.imports 0 1 1
                     (VStr "foo") (VStr "bar") Sample.sum8 Sample.fletcher16
                     false false None None
                     (mkChecksum [x00; x01; x44])
                     (mkChecksum [x00; x01; x5c; x36])
                     eq_refl eq_refl eq_refl eq_refl))|].
  vm_compute. reflexivity.
Defined.

Lemma checksum_starts_with_type_prefix_witness :
  exists flag p d,
    type_to_prefix (Imports:=Sample.imports) t_str flag = Ok p
    /\ [x00; x01; x81; x45] = p ++ d.
Proof.
  apply (@checksum_starts_with_type_prefix Sample.imports 2 (VStr "foo")
           Sample.fletcher16 false None [x00; x01; x81; x45]).
  vm_compute. reflexivity.
Defined.

Lemma unregistered_prefix_passes_type_witness :
  exists checksum_bytes prefix digest,
    type_to_prefix (Imports:=Sample.imports) (t_class "MyList" t_list) (Some true)
      = Ok prefix
    /\ data_checksum (Imports:=Sample.imports) (VBytearray checksum_bytes) t_bytes
         Sample.fletcher16
         (if bytes_eqb prefix MODEL_UNREGISTERED_TYPE_PREFIX
          then Some (t_class "MyList" t_list) else None) = Ok digest
    /\ [xff; xfe; x8c; x66] = prefix ++ digest.
Proof.
  apply (proj2 (@unregistered_prefix_passes_type Sample.imports 2
                  (VColl (t_class "MyList" t_list) [VInt 1])
                  (t_class "MyList" t_list) (t_class "MyList" t_list)
                  Sample.fletcher16 true [xff; xfe; x8c; x66]
                  ltac:(vm_compute; reflexivity)));
    reflexivity.
Defined.

Lemma sample_prefix_length (t : pytype) (flag : option bool) (p : bytes) :
  type_to_prefix (Imports:=Sample.imports) t flag = Ok p ->
  List.length p = PREFIX_BYTES.
Proof.
  cbn [type_to_prefix Sample.imports]. unfold type_to_prefix_model.
  destruct (dict_get pytype_eqb t Sample.registry) as [q|] eqn:E.
  - intros H. injection H as ->. apply dict_get_In in E.
    unfold Sample.registry, TYPE_TO_PREFIX in E. simpl in E.
    repeat (destruct E as [E|E]; [injection E as <- <-; reflexivity|]).
    contradiction.
  - destruct flag as [[|]|]; try discriminate.
    destruct (existsb _ _); [|discriminate]. intros H. now injection H as <-.
Qed.

Lemma sample_fletcher16_length (data : value) (data_type : pytype)
    (k : option pytype) (d : bytes) :
  data_checksum (Imports:=Sample.imports) data data_type Sample.fletcher16 k = Ok d ->
  List.length d = 2.
Proof.
  cbn [data_checksum Sample.imports]. unfold data_checksum_model.
  destruct (to_bytes data data_type); [|discriminate].
  cbn [bind]. intros H. now injection H as <-.
Qed.

Lemma container_checksum_congruence_witness :
  checksum (I:=Sample.imports) 2 (VList [VFloat (S754_zero false); VInt 1])
    Sample.fletcher16 false None =
  checksum (I:=Sample.imports) 2 (VList [VFloat (S754_zero true); VInt 1])
    Sample.fletcher16 false None.
Proof.
  apply (@container_checksum_congruence Sample.imports 1 t_list
           [VFloat (S754_zero false); VInt 1] [VFloat (S754_zero true); VInt 1]
           Sample.fletcher16 false);
    [reflexivity|reflexivity|repeat constructor].
Defined.

Lemma container_checksum_needs_every_element_witness :
  checksum (I:=Sample.imports) 2 (VList [VInt 1; VInstance "A" []; VNone])
    Sample.fletcher16 false None = Raise UnsupportedType.
Proof.
  apply (proj2 (@container_checksum_needs_every_element Sample.imports 1 t_list
                  [VInt 1; VInstance "A" []; VNone] Sample.fletcher16 false
                  eq_refl eq_refl)
           [VInt 1] (VInstance "A" []) [VNone] UnsupportedType);
    [reflexivity| |reflexivity].
  constructor; [|constructor]. exists [x00; x00; x01; x01]. reflexivity.
Defined.

Lemma small_container_checksum_witness :
  checksum (I:=Sample.imports) 2 (VSet [VInt 7]) Sample.fletcher16 false None
  = Ok [x01; x04; x15; x0e].
Proof.
  eapply eq_trans;
    [exact (proj2 (@small_container_checksum Sample.imports 1 t_set
                     Sample.fletcher16 false eq_refl eq_refl) (VInt 7))|].
  vm_compute. reflexivity.
Defined.

Lemma checksum_type_changes_only_prefix_witness :
  exists digest,
    [x00; x03; x04; x03] = [x00; x03] ++ digest
    /\ _checksum (I:=Sample.imports) 1 (VBytes [x01; x02]) t_bytes
         t_ChecksumCollection Sample.fletcher16 false None
       = Ok ([xff; x00] ++ digest).
Proof.
  apply (@checksum_type_changes_only_prefix Sample.imports 1 (VBytes [x01; x02])
           t_bytes t_bytes t_ChecksumCollection Sample.fletcher16 false
           [x00; x03] [xff; x00] [x00; x03; x04; x03]);
    [right; split; reflexivity|intros flag; reflexivity|intros flag; reflexivity|
     reflexivity|reflexivity|vm_compute; reflexivity].
Defined.

Lemma checksum_type_not_read_witness :
  _checksum (I:=Sample.imports) 4 (VDict t_dict [(VStr "a", VInt 1)]) t_dict t_int
    Sample.fletcher16 false None =
  _checksum (I:=Sample.imports) 4 (VDict t_dict [(VStr "a", VInt 1)]) t_dict t_dict
    Sample.fletcher16 false None.
Proof.
  apply (@checksum_type_not_read Sample.imports 4 (VDict t_dict [(VStr "a", VInt 1)])
           t_dict t_int t_dict Sample.fletcher16 false None).
  right. left. split; reflexivity.
Defined.

Lemma checksum_length_witness :
  List.length [x01; x03; x3c; xb5] = PREFIX_BYTES + 2.
Proof.
  apply (@checksum_length Sample.imports 10
           (VDict t_dict
              [(VStr "a", VDict t_dict [(VStr "b", VDict t_dict [(VStr "c", VInt 1)])])])
           Sample.fletcher16 false None [x01; x03; x3c; xb5] 2);
    [exact sample_prefix_length|exact sample_fletcher16_length|
     vm_compute; reflexivity].
Defined.

Lemma add_reads_joined_bytes_witness :
  __add__ (I:=Sample.imports) 1 (mkChecksum [x01; x02]) (VChecksum (mkChecksum [x03]))
  = __add__ (I:=Sample.imports) 1 (mkChecksum [x01]) (VChecksum (mkChecksum [x02; x03])).
Proof.
  apply (@add_reads_joined_bytes Sample.imports 1 (mkChecksum [x01; x02])
           (mkChecksum [x03]) (mkChecksum [x01]) (mkChecksum [x02; x03])).
  reflexivity.
Defined.

Lemma function_checksum_ignores_outer_whitespace_witness :
  checksum (I:=Sample.imports) 6
    (VFunction ("  " ++ "def f(): pass" ++ " ") [("calls", VInt 0)] "m")%string
    Sample.fletcher16 false None =
  checksum (I:=Sample.imports) 6
    (VFunction "def f(): pass" [("calls", VInt 0)]%string "m")
    Sample.fletcher16 false None.
Proof.
  apply (@function_checksum_ignores_outer_whitespace Sample.imports 6 "  "
           "def f(): pass" " " [("calls", VInt 0)]%string "m" Sample.fletcher16
           false);
    reflexivity.
Defined.

Lemma same_content_same_checksum_witness :
  returned (checksum (I:=Sample.imports) 5
              (VDict t_dict [(VStr "a", VSet [VInt 1; VInt 2]); (VStr "b", VInt 3)])
              Sample.fletcher16 false None) =
  returned (checksum (I:=Sample.imports) 5
              (VDict t_dict [(VStr "b", VInt 3); (VStr "a", VSet [VInt 2; VInt 1])])
              Sample.fletcher16 false None).
Proof.
  apply (@same_content_same_checksum Sample.imports).
  assert (Hd : dict_type (I:=Sample.imports) t_dict) by (repeat split).
  apply same_then
    with (y := VDict t_dict [(VStr "b", VInt 3); (VStr "a", VSet [VInt 1; VInt 2])]).
  - apply same_reordered_items; [exact Hd|apply perm_swap].
  - apply same_items; [exact Hd|repeat split|].
    apply same_item_lists_cons; [apply same_value|apply same_value|].
    apply same_item_lists_cons;
      [apply same_value| |apply same_item_lists_nil].
    apply same_reordered; [repeat split|apply perm_swap].
Defined.

Lemma dependency_checksum_congruence_witness :
  checksum (I:=Sample.imports) 4 (VFloat (S754_zero false)) Sample.fletcher16 false
    (Some ["pytest"; "setuptools"]%string) =
  checksum (I:=Sample.imports) 4 (VFloat (S754_zero true)) Sample.fletcher16 false
    (Some ["setuptools"; "pytest"; "pytest"]%string).
Proof.
  apply (proj1 (@dependency_checksum_congruence Sample.imports 2
                  (VFloat (S754_zero false)) (VFloat (S754_zero true))
                  Sample.fletcher16 false
                  (conj (conj eq_refl eq_refl) eq_refl))
           ["pytest"; "setuptools"]%string ["setuptools"; "pytest"; "pytest"]%string
           (VTuple [VStr "pytest==7.4.3"; VStr "setuptools==68.2.2"])
           (VTuple [VStr "pytest==7.4.3"; VStr "setuptools==68.2.2"]));
    reflexivity.
Defined.

Lemma dict_checksum_is_set_of_items_witness :
  exists digest,
    [x01; x03; x3c; x00] = [x01; x03] ++ digest
    /\ checksum (I:=Sample.imports) 3 (VSet [VTuple [VStr "a"; VInt 1]])
         Sample.fletcher16 false None
       = Ok ([x01; x04] ++ digest).
Proof.
  apply (@dict_checksum_is_set_of_items Sample.imports 2 t_dict
           [(VStr "a", VInt 1)] Sample.fletcher16 false [x01; x03] [x01; x04]
           [x01; x03; x3c; x00]);
    [repeat split|intros flag; reflexivity|intros flag; reflexivity|
     reflexivity|reflexivity|vm_compute; reflexivity].
Defined.

Lemma tuple_with_dependencies_is_pair_witness :
  checksum (I:=Sample.imports) 4 (VTuple [VInt 1]) Sample.fletcher16 false
    (Some ["pytest"%string]) =
  checksum (I:=Sample.imports) 3
    (VTuple [VTuple [VInt 1]; VTuple [VStr "pytest==7.4.3"]])
    Sample.fletcher16 false None.
Proof.
  apply (@tuple_with_dependencies_is_pair Sample.imports 3 [VInt 1]
           Sample.fletcher16 false ["pytest"%string]
           (VTuple [VStr "pytest==7.4.3"])).
  reflexivity.
Defined.
